(** * Query tools over a vector store (playground/agents_py/tools.py)

    A shallow embedding of [ChromaDBTools.create_tools]: the four tools
    [semantic_search], [get_document_pages], [search_with_page_filter] and
    [find_pages_by_keywords], the Python built-ins they rely on, and the
    interaction with the external vector store.

    Modelling conventions.
    - A Python [str] is a Rocq [string], one character per code point
      (code points below 256); [len] is [String.length].
    - A Python [int] is a [Z].
    - A chunk's [metadata] dict is a [gmap string Z]: the keys are strings
      and the only entry the tools read is the integer [page]; a missing key
      is a [None] lookup.
    - The store is external.  A tool is a tree of store calls ([Tool]);
      [run] executes it against any store, threading the store's state and
      logging the calls that were issued.
    - Where the identity of the chunks matters, the tools are also given
      over heap objects ([ToolO], [run_obj]): the store hands out
      references, and reading and assigning an attribute are operations of
      their own. *)

From Stdlib Require Import ZArith String Ascii List.
From stdpp Require Import base gmap sets list strings pretty sorting.

Local Open Scope Z_scope.

(** ** Python built-ins used by the tools *)

Module Py.

(** The newline character written [\n] in the source. *)
Definition nl : string := String "010"%char EmptyString.

(** [str(n)] for an int. *)
Definition str_int (n : Z) : string := pretty n.

(** [s[:n]] for a str and a literal [n >= 0]. *)
Definition str_prefix (n : nat) (s : string) : string := substring 0 n s.

(** [l[:k]] for a list: the first [k] elements, or all but the last
    [-k] when [k] is negative. *)
Definition list_prefix {A} (k : Z) (l : list A) : list A :=
  if decide (0 ≤ k) then take (Z.to_nat k) l
  else take (length l - Z.to_nat (- k)) l.

(** [sep.join(l)]. *)
Definition join (sep : string) (l : list string) : string :=
  String.concat sep l.

(** [repr] of a list, given the [repr] of its elements. *)
Definition repr_list {A} (repr_elem : A → string) (l : list A) : string :=
  "[" +:+ join ", " (repr_elem <$> l) +:+ "]".

(** [repr] of a list of ints, as an f-string renders it. *)
Definition repr_int_list (l : list Z) : string := repr_list str_int l.

(** *** [repr] of a str *)

Definition squote : ascii := "'"%char.
Definition dquote : ascii := "034"%char.
Definition backslash : ascii := "\"%char.

Definition hex_digit (n : N) : ascii :=
  match n with
  | 0 => "0" | 1 => "1" | 2 => "2" | 3 => "3" | 4 => "4" | 5 => "5"
  | 6 => "6" | 7 => "7" | 8 => "8" | 9 => "9" | 10 => "a" | 11 => "b"
  | 12 => "c" | 13 => "d" | 14 => "e" | _ => "f"
  end%char%N.

(** The [\xhh] escape. *)
Definition hex_escape (c : ascii) : string :=
  let n := N_of_ascii c in
  String backslash (String "x"
    (String (hex_digit (n / 16)) (String (hex_digit (n mod 16)) EmptyString))).

(** [str.isprintable] on one character below 256: the ASCII graphic
    characters and the space, and the Latin-1 ones except the no-break
    space and the soft hyphen. *)
Definition printable (c : ascii) : bool :=
  let n := N_of_ascii c in
  ((32 <=? n) && (n <? 127) || (161 <=? n) && negb (n =? 173))%N.

Fixpoint str_mem (c : ascii) (s : string) : bool :=
  match s with
  | EmptyString => false
  | String c' s' => if decide (c = c') then true else str_mem c s'
  end.

(** The quote [repr] wraps a str in: double quotes when the str holds a
    single quote and no double quote, single quotes otherwise. *)
Definition repr_quote (s : string) : ascii :=
  if str_mem squote s && negb (str_mem dquote s) then dquote else squote.

Definition repr_char (quote c : ascii) : string :=
  if decide (c = quote ∨ c = backslash) then String backslash (String c EmptyString)
  else if decide (c = "009"%char) then "\t"
  else if decide (c = "010"%char) then "\n"
  else if decide (c = "013"%char) then "\r"
  else if printable c then String c EmptyString
  else hex_escape c.

Fixpoint repr_chars (quote : ascii) (s : string) : string :=
  match s with
  | EmptyString => EmptyString
  | String c s' => repr_char quote c +:+ repr_chars quote s'
  end.

Definition repr_str (s : string) : string :=
  let quote := repr_quote s in
  String quote (repr_chars quote s +:+ String quote EmptyString).

(** [repr] of a list of strs, as an f-string renders it. *)
Definition repr_str_list (l : list string) : string := repr_list repr_str l.

(** [sorted(l)] for a list of ints. *)
Definition sorted (l : list Z) : list Z := merge_sort Z.le l.

End Py.

(** ** Data model *)

(** A chunk returned by the store (langchain's [Document]). *)
Record Document := mkDocument {
  page_content : string;
  metadata : gmap string Z
}.

(** The [where] argument of [vector_store.get], in the two shapes the
    tool builds: [{"page": p}] is [WhereEq "page" p], and
    [{"$or": [{"page": i}, ...]}] is [WhereOr [("page", i); ...]], every
    clause a one-entry dict. *)
Inductive Where :=
| WhereEq (key : string) (value : Z)
| WhereOr (clauses : list (string * Z)).

(** The dict returned by [vector_store.get], with the two entries the
    tool reads. *)
Record GetResult := mkGetResult {
  documents : list string;
  metadatas : list (gmap string Z)
}.

Inductive Exception :=
| KeyError (key : string).

(** ** Tools as trees of store calls *)

Inductive Tool (A : Type) : Type :=
| Return (a : A)
| Raise (e : Exception)
| SimilaritySearch (query : string) (k : Z) (cont : list Document → Tool A)
| Get (where_ : Where) (cont : GetResult → Tool A).

Arguments Return {A} a.
Arguments Raise {A} e.
Arguments SimilaritySearch {A} query k cont.
Arguments Get {A} where_ cont.

(** A call as it reaches the store. *)
Inductive StoreCall :=
| CallSimilaritySearch (query : string) (k : Z)
| CallGet (where_ : Where).

(** A store with a state of type [S]: each query answers from the state
    and yields the state after the query. *)
Record VectorStore (S : Type) := mkVectorStore {
  similarity_search : string → Z → S → list Document * S;
  get : Where → S → GetResult * S
}.

Arguments similarity_search {S} _ _ _ _.
Arguments get {S} _ _ _.

Inductive Outcome (A : Type) : Type :=
| Returned (a : A)
| Raised (e : Exception).

Arguments Returned {A} a.
Arguments Raised {A} e.

(** The result of running a tool: what the call yields, the state the
    store is left in, and the calls issued, oldest first. *)
Record Run (S A : Type) := mkRun {
  outcome : Outcome A;
  final_state : S;
  calls : list StoreCall
}.

Arguments mkRun {S A} _ _ _.
Arguments outcome {S A} _.
Arguments final_state {S A} _.
Arguments calls {S A} _.

Definition logged {S A} (c : StoreCall) (r : Run S A) : Run S A :=
  mkRun (outcome r) (final_state r) (c :: calls r).

Fixpoint run {S A} (vs : VectorStore S) (t : Tool A) (s : S) : Run S A :=
  match t with
  | Return a => mkRun (Returned a) s []
  | Raise e => mkRun (Raised e) s []
  | SimilaritySearch query k cont =>
      let '(results, s') := similarity_search vs query k s in
      logged (CallSimilaritySearch query k) (run vs (cont results) s')
  | Get where_ cont =>
      let '(context, s') := get vs where_ s in
      logged (CallGet where_) (run vs (cont context) s')
  end.

(** ** The four tools *)

(** The [content] expression of the two search tools:
    [page_content[:threshold] + "..."] when the content is longer than the
    threshold, the content itself otherwise. *)
Definition truncate_content (threshold : nat) (content : string) : string :=
  if decide (threshold < String.length content)%nat
  then Py.str_prefix threshold content +:+ "..."
  else content.

(** [res.metadata.get("page", "unknown")] inside an f-string. *)
Definition page_label (res : Document) : string :=
  match metadata res !! "page" with
  | Some page => Py.str_int page
  | None => "unknown"
  end.

(** One iteration's [f"{i}. [Page {page}]\n{content}\n\n"]. *)
Definition render_entry (threshold : nat) (i : Z) (res : Document) : string :=
  Py.str_int i +:+ ". [Page " +:+ page_label res +:+ "]" +:+ Py.nl
    +:+ truncate_content threshold (page_content res) +:+ Py.nl +:+ Py.nl.

(** The loop [for i, res in enumerate(results, i): output += ...]. *)
Fixpoint render_entries (threshold : nat) (i : Z) (results : list Document)
    (output : string) : string :=
  match results with
  | [] => output
  | res :: rest =>
      render_entries threshold (i + 1) rest
        (output +:+ render_entry threshold i res)
  end.

Definition semantic_search (query : string) (k : Z) : Tool string :=
  SimilaritySearch query k (λ results,
    match results with
    | [] => Return "No results found for the query."
    | _ =>
        let output :=
          "Found " +:+ Py.str_int (Z.of_nat (length results))
            +:+ " relevant passages:" +:+ Py.nl +:+ Py.nl in
        Return (render_entries 300 1 results output)
    end).

(** The loop of [get_document_pages] over [zip(documents, metadatas)];
    [metadata['page']] raises [KeyError] on a dict without the key. *)
Fixpoint render_pages (pairs : list (string * gmap string Z)) (text : string)
    : Tool string :=
  match pairs with
  | [] => Return text
  | (doc, metadata) :: rest =>
      match metadata !! "page" with
      | Some page =>
          render_pages rest
            (text +:+ "=== Page " +:+ Py.str_int page +:+ " ===" +:+ Py.nl
               +:+ doc +:+ Py.nl +:+ Py.nl)
      | None => Raise (KeyError "page")
      end
  end.

(** The store query of [get_document_pages] for a non-empty page list. *)
Definition pages_filter (pages : list Z) : Where :=
  match pages with
  | [page] => WhereEq "page" page
  | _ => WhereOr ((λ i, ("page", i)) <$> pages)
  end.

Definition get_document_pages (pages : list Z) : Tool string :=
  match pages with
  | [] => Return "No pages specified."
  | _ =>
      Get (pages_filter pages) (λ context,
        match documents context with
        | [] => Return ("No content found for pages: " +:+ Py.repr_int_list pages)
        | _ => render_pages (zip (documents context) (metadatas context)) EmptyString
        end)
  end.

(** The test [start_page <= res.metadata.get("page", 0) <= end_page]. *)
Definition in_page_range (start_page end_page : Z) (res : Document) : Prop :=
  let page := default 0 (metadata res !! "page") in
  start_page ≤ page ∧ page ≤ end_page.

Global Instance in_page_range_dec start_page end_page res :
  Decision (in_page_range start_page end_page res) := and_dec _ _.

(** The [filtered] list of [search_with_page_filter]. *)
Definition page_filtered (start_page end_page k : Z) (results : list Document)
    : list Document :=
  Py.list_prefix k (filter (in_page_range start_page end_page) results).

Definition search_with_page_filter (query : string) (start_page end_page k : Z)
    : Tool string :=
  SimilaritySearch query (k * 3) (λ results,
    let filtered := page_filtered start_page end_page k results in
    let range := Py.str_int start_page +:+ "-" +:+ Py.str_int end_page in
    match filtered with
    | [] => Return ("No results found in pages " +:+ range +:+ ".")
    | _ =>
        let output :=
          "Found " +:+ Py.str_int (Z.of_nat (length filtered))
            +:+ " results in pages " +:+ range +:+ ":" +:+ Py.nl +:+ Py.nl in
        Return (render_entries 250 1 filtered output)
    end).

(** What one result contributes to [pages] in [find_pages_by_keywords]:
    [res.metadata.get("page")] when that value is truthy.  A missing key
    gives Python's [None], which is falsy, and so is the int [0]. *)
Definition truthy_page (res : Document) : option Z :=
  match metadata res !! "page" with
  | Some page => if decide (page = 0) then None else Some page
  | None => None
  end.

(** The loop over [keywords], [all_pages] being the set built so far. *)
Fixpoint collect_pages (keywords : list string) (all_pages : gset Z)
    (cont : gset Z → Tool string) : Tool string :=
  match keywords with
  | [] => cont all_pages
  | keyword :: rest =>
      SimilaritySearch keyword 10 (λ results,
        let pages := omap truthy_page results in
        collect_pages rest (all_pages ∪ list_to_set pages) cont)
  end.

Definition find_pages_by_keywords (keywords : list string) : Tool string :=
  match keywords with
  | [] => Return "No keywords provided."
  | _ =>
      collect_pages keywords ∅ (λ all_pages,
        if decide (all_pages = ∅)
        then Return ("No pages found containing keywords: "
                       +:+ Py.repr_str_list keywords)
        else
          let sorted_pages := Py.sorted (elements all_pages) in
          Return ("Found " +:+ Py.str_int (Z.of_nat (length sorted_pages))
                    +:+ " pages containing keywords "
                    +:+ Py.repr_str_list keywords +:+ ":" +:+ Py.nl
                    +:+ "Pages: " +:+ Py.repr_int_list sorted_pages))
  end.

(** The tools with their default arguments. *)
Definition semantic_search_default (query : string) : Tool string :=
  semantic_search query 5.

Definition search_with_page_filter_default (query : string)
    (start_page end_page : Z) : Tool string :=
  search_with_page_filter query start_page end_page 3.

(** ** Vocabulary of the statements *)

(** [needle in hay] for two strs. *)
Fixpoint str_in (needle hay : string) : bool :=
  String.prefix needle hay ||
  match hay with
  | EmptyString => false
  | String _ hay' => str_in needle hay'
  end.

(** [hay.endswith(needle)]. *)
Definition ends_with (needle hay : string) : bool :=
  String.prefix (String.rev needle) (String.rev hay).

(** Concatenation of a list of strs. *)
Definition str_concat (l : list string) : string :=
  foldr String.append EmptyString l.

(** The entries of a result block, numbered from 1. *)
Definition numbered_entries (threshold : nat) (results : list Document)
    : list string :=
  imap (λ i res, render_entry threshold (Z.of_nat i + 1) res) results.

(** The store's reading of a filter on one chunk's metadata: an equality
    clause holds when the key is present with that value, a disjunction
    when one of its clauses holds. *)
Definition where_matches (w : Where) (md : gmap string Z) : bool :=
  match w with
  | WhereEq key value => bool_decide (md !! key = Some value)
  | WhereOr clauses =>
      existsb (λ c, bool_decide (md !! c.1 = Some c.2)) clauses
  end.

(** A store whose queries leave its state as it was. *)
Definition read_only {S} (vs : VectorStore S) : Prop :=
  (∀ query k s, (similarity_search vs query k s).2 = s) ∧
  (∀ where_ s, (get vs where_ s).2 = s).

(** The answers of the store to one search per keyword with [k=10], issued
    in order from state [s], and the state after the last one. *)
Fixpoint keyword_results {S} (vs : VectorStore S) (keywords : list string)
    (s : S) : list (list Document) * S :=
  match keywords with
  | [] => ([], s)
  | keyword :: rest =>
      let '(results, s') := similarity_search vs keyword 10 s in
      let '(responses, s'') := keyword_results vs rest s' in
      (results :: responses, s'')
  end.

(** The pages the keyword loop collects from these answers. *)
Definition surfaced_pages (responses : list (list Document)) : gset Z :=
  list_to_set (omap truthy_page (mjoin responses)).

(** The state a store reaches from [s] by answering the calls [cs] in
    order. *)
Fixpoint replay {S} (vs : VectorStore S) (cs : list StoreCall) (s : S) : S :=
  match cs with
  | [] => s
  | CallSimilaritySearch query k :: cs' =>
      replay vs cs' (similarity_search vs query k s).2
  | CallGet where_ :: cs' => replay vs cs' (get vs where_ s).2
  end.

(** The calls [cs] followed by the run [r]. *)
Definition after_calls {S A} (cs : list StoreCall) (r : Run S A) : Run S A :=
  mkRun (outcome r) (final_state r) (cs ++ calls r).

(** A chunk with the given content and page, or with no page entry. *)
Definition chunk (content : string) (page : option Z) : Document :=
  mkDocument content
    (match page with Some p => {[ "page" := p ]} | None => ∅ end).

(** A toy store over a list of chunks: a similarity search answers with the
    first [k] chunks of the collection, a [get] with the chunks its filter
    matches; neither changes the collection. *)
Definition list_store : VectorStore (list Document) :=
  mkVectorStore (list Document)
    (λ _ k s, (take (Z.to_nat k) s, s))
    (λ w s,
       let hits := List.filter (λ res, where_matches w (metadata res)) s in
       (mkGetResult (page_content <$> hits) (metadata <$> hits), s)).

(** A store that answers every similarity search with [results] and every
    [get] with [context]. *)
Definition canned_store (results : list Document) (context : GetResult)
    : VectorStore unit :=
  mkVectorStore unit (λ _ _ s, (results, s)) (λ _ s, (context, s)).

(** What a rendered content [block] must look like for a chunk content and
    a threshold: [threshold + 3] characters ending in "..." when the
    content is longer than the threshold, the content itself otherwise. *)
Definition truncation_rule (threshold : nat) (content block : string) : Prop :=
  ((threshold < String.length content)%nat →
   String.length block = (threshold + 3)%nat ∧ ends_with "..." block = true) ∧
  ((String.length content ≤ threshold)%nat → block = content).

(** [c * n]: the character [c] repeated [n] times. *)
Fixpoint str_repeat (c : ascii) (n : nat) : string :=
  match n with
  | O => EmptyString
  | Datatypes.S n' => String c (str_repeat c n')
  end.

(** One block of the text of [get_document_pages]:
    [f"=== Page {page} ===\n{doc}\n\n"]. *)
Definition page_block (page : Z) (doc : string) : string :=
  "=== Page " +:+ Py.str_int page +:+ " ===" +:+ Py.nl +:+ doc +:+ Py.nl +:+ Py.nl.

(** The blocks of a list of (document, metadata) pairs, in order, when every
    metadata has a page entry; [None] as soon as one has not. *)
Fixpoint page_blocks (pairs : list (string * gmap string Z))
    : option (list string) :=
  match pairs with
  | [] => Some []
  | (doc, md) :: rest =>
      match md !! "page", page_blocks rest with
      | Some page, Some blocks => Some (page_block page doc :: blocks)
      | _, _ => None
      end
  end.

(** The last string [find_pages_by_keywords] builds, from the keywords and
    the set of pages collected. *)
Definition pages_report (keywords : list string) (all_pages : gset Z) : string :=
  if decide (all_pages = ∅)
  then "No pages found containing keywords: " +:+ Py.repr_str_list keywords
  else
    let sorted_pages := Py.sorted (elements all_pages) in
    "Found " +:+ Py.str_int (Z.of_nat (length sorted_pages))
      +:+ " pages containing keywords " +:+ Py.repr_str_list keywords
      +:+ ":" +:+ Py.nl +:+ "Pages: " +:+ Py.repr_int_list sorted_pages.

(** The characters [str] of an int is made of: the digits and the sign. *)
Definition int_char (c : ascii) : bool :=
  let n := N_of_ascii c in
  ((48 <=? n) && (n <=? 57) || (n =? 45))%N.

(** Every character of [s] satisfies [P]. *)
Fixpoint str_forall (P : ascii → bool) (s : string) : bool :=
  match s with
  | EmptyString => true
  | String c s' => P c && str_forall P s'
  end.

(** A chunk read as a chunk of page 0 when it has no page entry. *)
Definition as_page_zero (res : Document) : Document :=
  match metadata res !! "page" with
  | Some _ => res
  | None => mkDocument (page_content res) (<["page" := 0]> (metadata res))
  end.

(** ** The tools over Python objects

    The same four functions, one level down: what the store hands out are
    references to objects on a heap, a [Document] for a similarity search
    and a metadata dict for a [get], and a tool is a tree of the operations
    a function body can perform on them: reading an attribute or an entry,
    assigning to one, querying the store, updating the store. *)

(** An object on the heap: a langchain [Document], or a dict. *)
Inductive Obj :=
| ObjDocument (content : string) (meta : gmap string Z)
| ObjDict (entries : gmap string Z).

(** [res.page_content] and [res.metadata] (or the dict itself) of the
    object found at a reference. *)
Definition obj_content (o : option Obj) : string :=
  match o with
  | Some (ObjDocument content _) => content
  | _ => EmptyString
  end.

Definition obj_metadata (o : option Obj) : gmap string Z :=
  match o with
  | Some (ObjDocument _ meta) => meta
  | Some (ObjDict entries) => entries
  | None => ∅
  end.

(** [res.page_content = value] and [d[key] = value] on an object. *)
Definition set_content (value : string) (o : Obj) : Obj :=
  match o with
  | ObjDocument _ meta => ObjDocument value meta
  | ObjDict entries => ObjDict entries
  end.

Definition set_entry (key : string) (value : Z) (o : Obj) : Obj :=
  match o with
  | ObjDocument content meta => ObjDocument content (<[key := value]> meta)
  | ObjDict entries => ObjDict (<[key := value]> entries)
  end.

(** The calls of the store's interface that change the collection. *)
Inductive StoreUpdate :=
| AddTexts (texts : list string) (metadatas : list (gmap string Z))
| Delete (ids : list string).

(** One interaction with the store, as logged. *)
Inductive StoreOp :=
| OpQuery (c : StoreCall)
| OpUpdate (u : StoreUpdate).

Definition is_query (op : StoreOp) : bool :=
  match op with
  | OpQuery _ => true
  | OpUpdate _ => false
  end.

Inductive ToolO (A : Type) : Type :=
| ReturnO (a : A)
| RaiseO (e : Exception)
| SimilaritySearchO (query : string) (k : Z) (cont : list positive → ToolO A)
| GetO (where_ : Where) (cont : list string * list positive → ToolO A)
| UpdateO (u : StoreUpdate) (cont : ToolO A)
| PageContent (res : positive) (cont : string → ToolO A)
| MetadataGet (d : positive) (key : string) (cont : option Z → ToolO A)
| SetPageContent (res : positive) (value : string) (cont : ToolO A)
| MetadataSet (d : positive) (key : string) (value : Z) (cont : ToolO A).

Arguments ReturnO {A} a.
Arguments RaiseO {A} e.
Arguments SimilaritySearchO {A} query k cont.
Arguments GetO {A} where_ cont.
Arguments UpdateO {A} u cont.
Arguments PageContent {A} res cont.
Arguments MetadataGet {A} d key cont.
Arguments SetPageContent {A} res value cont.
Arguments MetadataSet {A} d key value cont.

(** A store over a heap: a similarity search answers with references to
    [Document] objects, a [get] with the document texts and references to
    the metadata dicts; each call may change the store's state and the heap
    (the store may build the objects it hands out). *)
Record ObjectStore (S : Type) := mkObjectStore {
  search_objects :
    string → Z → S * gmap positive Obj → list positive * (S * gmap positive Obj);
  get_objects :
    Where → S * gmap positive Obj →
    (list string * list positive) * (S * gmap positive Obj);
  update_objects : StoreUpdate → S * gmap positive Obj → S * gmap positive Obj
}.

Arguments search_objects {S} _ _ _ _.
Arguments get_objects {S} _ _ _.
Arguments update_objects {S} _ _ _.

(** The result of running a tool over objects: what the call yields, the
    store's state and the heap it leaves, and the store interactions,
    oldest first. *)
Record RunO (S A : Type) := mkRunO {
  outcome_o : Outcome A;
  world : S * gmap positive Obj;
  store_log : list StoreOp
}.

Arguments mkRunO {S A} _ _ _.
Arguments outcome_o {S A} _.
Arguments world {S A} _.
Arguments store_log {S A} _.

Definition logged_o {S A} (op : StoreOp) (r : RunO S A) : RunO S A :=
  mkRunO (outcome_o r) (world r) (op :: store_log r).

Fixpoint run_obj {S A} (os : ObjectStore S) (t : ToolO A)
    (w : S * gmap positive Obj) : RunO S A :=
  match t with
  | ReturnO a => mkRunO (Returned a) w []
  | RaiseO e => mkRunO (Raised e) w []
  | SimilaritySearchO query k cont =>
      let '(results, w') := search_objects os query k w in
      logged_o (OpQuery (CallSimilaritySearch query k)) (run_obj os (cont results) w')
  | GetO where_ cont =>
      let '(context, w') := get_objects os where_ w in
      logged_o (OpQuery (CallGet where_)) (run_obj os (cont context) w')
  | UpdateO u cont =>
      logged_o (OpUpdate u) (run_obj os cont (update_objects os u w))
  | PageContent res cont => run_obj os (cont (obj_content (w.2 !! res))) w
  | MetadataGet d key cont => run_obj os (cont (obj_metadata (w.2 !! d) !! key)) w
  | SetPageContent res value cont =>
      run_obj os cont (w.1, alter (set_content value) res w.2)
  | MetadataSet d key value cont =>
      run_obj os cont (w.1, alter (set_entry key value) d w.2)
  end.

(** The [content] expression on an object: [len(res.page_content)] is read
    for the test, then [res.page_content] again for the value. *)
Definition read_truncated {A} (threshold : nat) (res : positive)
    (cont : string → ToolO A) : ToolO A :=
  PageContent res (λ tested,
    if decide (threshold < String.length tested)%nat
    then PageContent res (λ content,
           cont (Py.str_prefix threshold content +:+ "..."))
    else PageContent res cont).

(** [f"{i}. [Page {page}]\n{content}\n\n"], [page] being what
    [res.metadata.get("page", "unknown")] gave. *)
Definition format_entry (i : Z) (page : option Z) (content : string) : string :=
  Py.str_int i +:+ ". [Page "
    +:+ match page with Some p => Py.str_int p | None => "unknown" end
    +:+ "]" +:+ Py.nl +:+ content +:+ Py.nl +:+ Py.nl.

(** The loop [for i, res in enumerate(results, i): output += ...]. *)
Fixpoint render_entries_obj {A} (threshold : nat) (i : Z)
    (results : list positive) (output : string) (cont : string → ToolO A)
    : ToolO A :=
  match results with
  | [] => cont output
  | res :: rest =>
      MetadataGet res "page" (λ page,
        read_truncated threshold res (λ content,
          render_entries_obj threshold (i + 1) rest
            (output +:+ format_entry i page content) cont))
  end.

Definition semantic_search_obj (query : string) (k : Z) : ToolO string :=
  SimilaritySearchO query k (λ results,
    match results with
    | [] => ReturnO "No results found for the query."
    | _ =>
        let output :=
          "Found " +:+ Py.str_int (Z.of_nat (length results))
            +:+ " relevant passages:" +:+ Py.nl +:+ Py.nl in
        render_entries_obj 300 1 results output ReturnO
    end).

(** The loop over [zip(context["documents"], context["metadatas"])]. *)
Fixpoint render_pages_obj (pairs : list (string * positive)) (text : string)
    : ToolO string :=
  match pairs with
  | [] => ReturnO text
  | (doc, metadata) :: rest =>
      MetadataGet metadata "page" (λ page,
        match page with
        | Some page =>
            render_pages_obj rest
              (text +:+ "=== Page " +:+ Py.str_int page +:+ " ===" +:+ Py.nl
                 +:+ doc +:+ Py.nl +:+ Py.nl)
        | None => RaiseO (KeyError "page")
        end)
  end.

Definition get_document_pages_obj (pages : list Z) : ToolO string :=
  match pages with
  | [] => ReturnO "No pages specified."
  | _ =>
      GetO (pages_filter pages) (λ context,
        match context.1 with
        | [] => ReturnO ("No content found for pages: " +:+ Py.repr_int_list pages)
        | _ => render_pages_obj (zip context.1 context.2) EmptyString
        end)
  end.

(** The comprehension
    [[res for res in results if start_page <= res.metadata.get("page", 0) <= end_page]]. *)
Fixpoint filter_pages_obj {A} (start_page end_page : Z)
    (results : list positive) (cont : list positive → ToolO A) : ToolO A :=
  match results with
  | [] => cont []
  | res :: rest =>
      MetadataGet res "page" (λ page,
        let page := default 0 page in
        if decide (start_page ≤ page ∧ page ≤ end_page)
        then filter_pages_obj start_page end_page rest (λ kept, cont (res :: kept))
        else filter_pages_obj start_page end_page rest cont)
  end.

Definition search_with_page_filter_obj (query : string)
    (start_page end_page k : Z) : ToolO string :=
  SimilaritySearchO query (k * 3) (λ results,
    filter_pages_obj start_page end_page results (λ kept,
      let filtered := Py.list_prefix k kept in
      let range := Py.str_int start_page +:+ "-" +:+ Py.str_int end_page in
      match filtered with
      | [] => ReturnO ("No results found in pages " +:+ range +:+ ".")
      | _ =>
          let output :=
            "Found " +:+ Py.str_int (Z.of_nat (length filtered))
              +:+ " results in pages " +:+ range +:+ ":" +:+ Py.nl +:+ Py.nl in
          render_entries_obj 250 1 filtered output ReturnO
      end)).

(** The comprehension
    [[res.metadata.get("page") for res in results if res.metadata.get("page")]]:
    the entry is read for the test and, when truthy, again for the element.
    A second read giving no entry would put [None] in the list; with ints
    only in the page set, such an element is left out here. *)
Fixpoint truthy_pages_obj {A} (results : list positive)
    (cont : list Z → ToolO A) : ToolO A :=
  match results with
  | [] => cont []
  | res :: rest =>
      MetadataGet res "page" (λ tested,
        match tested with
        | Some page =>
            if decide (page = 0) then truthy_pages_obj rest cont
            else
              MetadataGet res "page" (λ element,
                truthy_pages_obj rest (λ pages,
                  cont (from_option (λ p, p :: pages) pages element)))
        | None => truthy_pages_obj rest cont
        end)
  end.

Fixpoint collect_pages_obj (keywords : list string) (all_pages : gset Z)
    (cont : gset Z → ToolO string) : ToolO string :=
  match keywords with
  | [] => cont all_pages
  | keyword :: rest =>
      SimilaritySearchO keyword 10 (λ results,
        truthy_pages_obj results (λ pages,
          collect_pages_obj rest (all_pages ∪ list_to_set pages) cont))
  end.

Definition find_pages_by_keywords_obj (keywords : list string) : ToolO string :=
  match keywords with
  | [] => ReturnO "No keywords provided."
  | _ =>
      collect_pages_obj keywords ∅ (λ all_pages,
        if decide (all_pages = ∅)
        then ReturnO ("No pages found containing keywords: "
                        +:+ Py.repr_str_list keywords)
        else
          let sorted_pages := Py.sorted (elements all_pages) in
          ReturnO ("Found " +:+ Py.str_int (Z.of_nat (length sorted_pages))
                     +:+ " pages containing keywords "
                     +:+ Py.repr_str_list keywords +:+ ":" +:+ Py.nl
                     +:+ "Pages: " +:+ Py.repr_int_list sorted_pages))
  end.

(** *** Vocabulary for the runs over objects *)

(** The chunk a reference stands for in a heap. *)
Definition deref (h : gmap positive Obj) (r : positive) : Document :=
  mkDocument (obj_content (h !! r)) (obj_metadata (h !! r)).

(** The store over objects seen as a store of chunk values: its state is
    the object store's state together with the heap, and its answers are
    the objects' contents at the time of the answer. *)
Definition values_store {S} (os : ObjectStore S)
    : VectorStore (S * gmap positive Obj) :=
  mkVectorStore (S * gmap positive Obj)
    (λ query k w,
       let '(results, w') := search_objects os query k w in
       (deref w'.2 <$> results, w'))
    (λ where_ w,
       let '(context, w') := get_objects os where_ w in
       (mkGetResult context.1 ((λ d, obj_metadata (w'.2 !! d)) <$> context.2), w')).

(** What the store alone does to its state and the heap when it serves
    the logged interactions in order. *)
Fixpoint replay_ops {S} (os : ObjectStore S) (ops : list StoreOp)
    (w : S * gmap positive Obj) : S * gmap positive Obj :=
  match ops with
  | [] => w
  | OpQuery (CallSimilaritySearch query k) :: ops' =>
      replay_ops os ops' (search_objects os query k w).2
  | OpQuery (CallGet where_) :: ops' =>
      replay_ops os ops' (get_objects os where_ w).2
  | OpUpdate u :: ops' => replay_ops os ops' (update_objects os u w)
  end.

(** A run that wrote nothing: every logged interaction is a query, and the
    store's state and the heap are what the store made of them in serving
    these queries, no object having been assigned to in between. *)
Definition writes_nothing {S A} (os : ObjectStore S)
    (w : S * gmap positive Obj) (r : RunO S A) : Prop :=
  forallb is_query (store_log r) = true ∧
  world r = replay_ops os (store_log r) w.

(** An object store whose queries are reads: they leave the store's state
    and every object as they were. *)
Definition queries_read {S} (os : ObjectStore S) : Prop :=
  (∀ query k w, (search_objects os query k w).2 = w) ∧
  (∀ where_ w, (get_objects os where_ w).2 = w).

(** The run over objects that corresponds to a run over chunk values. *)
Definition of_value_run {S A} (r : Run (S * gmap positive Obj) A) : RunO S A :=
  mkRunO (outcome r) (final_state r) (OpQuery <$> calls r).

(** A store over a heap that hands out the objects it holds: every
    similarity search answers with the references in [refs], every [get]
    with [docs] and the references in [dicts]; no call changes anything. *)
Definition shelf_store (refs : list positive) (docs : list string)
    (dicts : list positive) : ObjectStore unit :=
  mkObjectStore unit (λ _ _ w, (refs, w)) (λ _ w, ((docs, dicts), w)) (λ _ w, w).

(** ** Facts about strings *)

Section string_facts.

Implicit Types s needle hay : string.

Lemma append_nil_l s : EmptyString +:+ s = s.
Proof. reflexivity. Qed.

Lemma append_cons c s1 s2 : String c s1 +:+ s2 = String c (s1 +:+ s2).
Proof. reflexivity. Qed.

Lemma append_assoc s1 s2 s3 : (s1 +:+ s2) +:+ s3 = s1 +:+ (s2 +:+ s3).
Proof.
  induction s1 as [|c s1 IH]; [done|].
  by rewrite !append_cons, IH.
Qed.

Lemma append_empty_r s : s +:+ EmptyString = s.
Proof.
  induction s as [|c s IH]; [done|].
  by rewrite append_cons, IH.
Qed.

Lemma length_append s1 s2 :
  String.length (s1 +:+ s2) = (String.length s1 + String.length s2)%nat.
Proof.
  induction s1 as [|c s1 IH]; [done|].
  rewrite append_cons. simpl. by rewrite IH.
Qed.

Lemma length_str_prefix (n : nat) s :
  String.length (Py.str_prefix n s) = (n `min` String.length s)%nat.
Proof.
  unfold Py.str_prefix. revert s.
  induction n as [|n IH]; intros [|c s]; simpl; try done.
  by rewrite IH.
Qed.

Lemma prefix_append s1 s2 : String.prefix s1 (s1 +:+ s2) = true.
Proof.
  induction s1 as [|c s1 IH]; [by destruct s2|].
  rewrite append_cons. simpl. by destruct (ascii_dec c c).
Qed.

Lemma str_in_prefix needle hay :
  String.prefix needle hay = true → str_in needle hay = true.
Proof. intros H. destruct hay; cbn [str_in]; by rewrite H. Qed.

Lemma str_in_append_l needle rest : str_in needle (needle +:+ rest) = true.
Proof. apply str_in_prefix, prefix_append. Qed.

Lemma str_in_append_r needle before hay :
  str_in needle hay = true → str_in needle (before +:+ hay) = true.
Proof.
  intros H. induction before as [|c before IH]; [done|].
  rewrite append_cons. cbn [str_in]. rewrite IH. apply orb_true_r.
Qed.

Lemma rev_app_append s1 s2 :
  String.rev_app s1 s2 = String.rev_app s1 EmptyString +:+ s2.
Proof.
  revert s2. induction s1 as [|c s1 IH]; intros s2; simpl; [done|].
  rewrite (IH (String c s2)), (IH (String c EmptyString)), append_assoc. done.
Qed.

Lemma rev_append s1 s2 :
  String.rev (s1 +:+ s2) = String.rev s2 +:+ String.rev s1.
Proof.
  unfold String.rev. induction s1 as [|c s1 IH].
  - by rewrite append_nil_l, append_empty_r.
  - rewrite append_cons. simpl.
    rewrite (rev_app_append (s1 +:+ s2)), IH, (rev_app_append s1 (String c _)).
    by rewrite append_assoc.
Qed.

Lemma ends_with_append before needle :
  ends_with needle (before +:+ needle) = true.
Proof. unfold ends_with. rewrite rev_append. apply prefix_append. Qed.

End string_facts.

(** ** The rendered output as a sequence of entries *)

Section rendering.

Lemma render_entries_from threshold i results output :
  render_entries threshold i results output =
  output +:+
    str_concat (imap (λ j res, render_entry threshold (Z.of_nat j + i) res) results).
Proof.
  revert i output. induction results as [|res rest IH]; intros i output.
  - simpl. by rewrite append_empty_r.
  - simpl. rewrite IH, append_assoc. do 3 f_equal.
    apply imap_ext. intros j x _. simpl. f_equal. lia.
Qed.

Lemma render_entries_numbered threshold results output :
  render_entries threshold 1 results output =
  output +:+ str_concat (numbered_entries threshold results).
Proof. apply render_entries_from. Qed.

Lemma numbered_entries_lookup threshold results i res :
  results !! i = Some res →
  numbered_entries threshold results !! i =
  Some (render_entry threshold (Z.of_nat i + 1) res).
Proof. intros H. unfold numbered_entries. by rewrite list_lookup_imap, H. Qed.

Lemma truncate_content_long threshold content :
  (threshold < String.length content)%nat →
  truncate_content threshold content =
    Py.str_prefix threshold content +:+ "..." ∧
  String.length (truncate_content threshold content) = (threshold + 3)%nat ∧
  ends_with "..." (truncate_content threshold content) = true.
Proof.
  intros Hlong. unfold truncate_content.
  destruct (decide _) as [_|]; [|done]. split_and!.
  - done.
  - rewrite length_append, length_str_prefix. simpl. lia.
  - apply ends_with_append.
Qed.

Lemma truncate_content_short threshold content :
  (String.length content ≤ threshold)%nat →
  truncate_content threshold content = content.
Proof.
  intros Hshort. unfold truncate_content.
  destruct (decide _) as [?|_]; [lia|done].
Qed.

End rendering.

(** ** Running the tools *)

Section runs.

Context {S : Type} (vs : VectorStore S).

Lemma run_semantic_search query k s :
  run vs (semantic_search query k) s =
  let '(results, s') := similarity_search vs query k s in
  mkRun
    (Returned
       match results with
       | [] => "No results found for the query."
       | _ =>
           ("Found " +:+ Py.str_int (Z.of_nat (length results))
              +:+ " relevant passages:" +:+ Py.nl +:+ Py.nl)
             +:+ str_concat (numbered_entries 300 results)
       end)
    s' [CallSimilaritySearch query k].
Proof.
  unfold semantic_search. cbn [run].
  destruct (similarity_search vs query k s) as [results s'].
  destruct results as [|res rest]; [done|].
  cbn [run]. by rewrite render_entries_numbered.
Qed.

End runs.

(** C2.  Whatever the query and [k], [semantic_search] returns a string; that
    string is exactly "No results found for the query." if and only if the
    store answered with no chunk, and when the store answered with N >= 1
    chunks it contains "Found N relevant passages". *)
Theorem semantic_search_sentinel_or_count {S} (vs : VectorStore S) query k s :
  let results := (similarity_search vs query k s).1 in
  ∃ out,
    outcome (run vs (semantic_search query k) s) = Returned out ∧
    (out = "No results found for the query." ↔ results = []) ∧
    (results ≠ [] →
     str_in ("Found " +:+ Py.str_int (Z.of_nat (length results))
               +:+ " relevant passages") out = true).
Proof.
  intros results. rewrite run_semantic_search. subst results.
  destruct (similarity_search vs query k s) as [results s']; simpl.
  destruct results as [|res rest].
  - eexists; split_and!; done.
  - eexists; split_and!; [done| |].
    + split; [|done]. intros Heq. exfalso.
      rewrite !append_assoc, append_cons in Heq. discriminate Heq.
    + intros _.
      set (n := Py.str_int _). set (entries := str_concat _).
      replace (("Found " +:+ n +:+ " relevant passages:" +:+ Py.nl +:+ Py.nl)
                 +:+ entries)
        with (("Found " +:+ n +:+ " relevant passages")
                 +:+ (":" +:+ Py.nl +:+ Py.nl +:+ entries)).
      * apply str_in_append_l.
      * rewrite !append_assoc. reflexivity.
Qed.

Section more_runs.

Context {S : Type} (vs : VectorStore S).

Lemma run_search_with_page_filter query start_page end_page k s :
  run vs (search_with_page_filter query start_page end_page k) s =
  let '(results, s') := similarity_search vs query (k * 3) s in
  let filtered := page_filtered start_page end_page k results in
  let range := Py.str_int start_page +:+ "-" +:+ Py.str_int end_page in
  mkRun
    (Returned
       match filtered with
       | [] => "No results found in pages " +:+ range +:+ "."
       | _ =>
           ("Found " +:+ Py.str_int (Z.of_nat (length filtered))
              +:+ " results in pages " +:+ range +:+ ":" +:+ Py.nl +:+ Py.nl)
             +:+ str_concat (numbered_entries 250 filtered)
       end)
    s' [CallSimilaritySearch query (k * 3)].
Proof.
  unfold search_with_page_filter. cbn [run].
  destruct (similarity_search vs query (k * 3) s) as [results s']. cbn zeta.
  destruct (page_filtered start_page end_page k results) as [|res rest]; [done|].
  cbn [run]. by rewrite render_entries_numbered.
Qed.

Lemma run_render_pages_raises pairs text s doc md :
  (doc, md) ∈ pairs → md !! "page" = None →
  run vs (render_pages pairs text) s = mkRun (Raised (KeyError "page")) s [].
Proof.
  intros Hin Hmd. revert text.
  induction pairs as [|[doc' md'] pairs IH]; intros text.
  - by apply elem_of_nil in Hin.
  - cbn [render_pages]. destruct (md' !! "page") as [page|] eqn:Hpage; [|done].
    apply elem_of_cons in Hin as [Heq|Hin]; [congruence|]. by apply IH.
Qed.

Lemma run_render_pages_quiet pairs text s :
  final_state (run vs (render_pages pairs text) s) = s ∧
  calls (run vs (render_pages pairs text) s) = [].
Proof.
  revert text. induction pairs as [|[doc md] pairs IH]; intros text; [done|].
  cbn [render_pages]. destruct (md !! "page"); [apply IH|done].
Qed.

Lemma calls_run_get_document_pages page rest s :
  calls (run vs (get_document_pages (page :: rest)) s) =
  [CallGet (pages_filter (page :: rest))].
Proof.
  cbn [get_document_pages run].
  destruct (get vs (pages_filter (page :: rest)) s) as [context s'].
  unfold logged. cbn [calls]. f_equal.
  destruct (documents context); [done|]. apply run_render_pages_quiet.
Qed.

Lemma run_get_document_pages page rest s :
  run vs (get_document_pages (page :: rest)) s =
  let pages := page :: rest in
  let '(context, s') := get vs (pages_filter pages) s in
  logged (CallGet (pages_filter pages))
    (run vs
       match documents context with
       | [] => Return ("No content found for pages: " +:+ Py.repr_int_list pages)
       | _ => render_pages (zip (documents context) (metadatas context)) EmptyString
       end s').
Proof. reflexivity. Qed.

Lemma after_calls_nil {A} (r : Run S A) : after_calls [] r = r.
Proof. by destruct r. Qed.

Lemma surfaced_pages_cons results responses :
  surfaced_pages (results :: responses) =
  list_to_set (omap truthy_page results) ∪ surfaced_pages responses.
Proof.
  unfold surfaced_pages. cbn [mjoin list_join].
  by rewrite omap_app, list_to_set_app_L.
Qed.

Lemma run_collect_pages keywords all_pages cont s :
  run vs (collect_pages keywords all_pages cont) s =
  let '(responses, s') := keyword_results vs keywords s in
  after_calls ((λ keyword, CallSimilaritySearch keyword 10) <$> keywords)
    (run vs (cont (all_pages ∪ surfaced_pages responses)) s').
Proof.
  revert all_pages s.
  induction keywords as [|keyword rest IH]; intros all_pages s.
  - cbn [collect_pages keyword_results fmap list_fmap].
    rewrite after_calls_nil. unfold surfaced_pages.
    cbn [mjoin list_join omap list_omap].
    by rewrite list_to_set_nil, (right_id_L ∅ (∪)).
  - cbn [collect_pages keyword_results run].
    destruct (similarity_search vs keyword 10 s) as [results s1].
    rewrite IH. destruct (keyword_results vs rest s1) as [responses s2].
    rewrite surfaced_pages_cons, (assoc_L (∪)). reflexivity.
Qed.

Lemma run_find_pages_by_keywords keyword rest s :
  run vs (find_pages_by_keywords (keyword :: rest)) s =
  let keywords := keyword :: rest in
  let '(responses, s') := keyword_results vs keywords s in
  let all_pages := surfaced_pages responses in
  mkRun
    (Returned
       (if decide (all_pages = ∅)
        then "No pages found containing keywords: " +:+ Py.repr_str_list keywords
        else
          let sorted_pages := Py.sorted (elements all_pages) in
          "Found " +:+ Py.str_int (Z.of_nat (length sorted_pages))
            +:+ " pages containing keywords " +:+ Py.repr_str_list keywords
            +:+ ":" +:+ Py.nl +:+ "Pages: " +:+ Py.repr_int_list sorted_pages))
    s' ((λ keyword, CallSimilaritySearch keyword 10) <$> keywords).
Proof.
  unfold find_pages_by_keywords. rewrite run_collect_pages.
  destruct (keyword_results vs (keyword :: rest) s) as [responses s'].
  rewrite (left_id_L ∅ (∪)). cbn zeta.
  destruct (decide (surfaced_pages responses = ∅)); cbn [run];
    unfold after_calls; cbn [outcome final_state calls];
    by rewrite (right_id_L [] (++)).
Qed.

End more_runs.

(** ** The sorted page list *)

Section sorted_pages.


Lemma elem_of_sorted (l : list Z) p : p ∈ Py.sorted l ↔ p ∈ l.
Proof. unfold Py.sorted. by rewrite merge_sort_Permutation. Qed.



Lemma elem_of_sorted_elements (pages : gset Z) p :
  p ∈ Py.sorted (elements pages) ↔ p ∈ pages.
Proof. by rewrite elem_of_sorted, elem_of_elements. Qed.

Lemma elem_of_surfaced_pages responses p :
  p ∈ surfaced_pages responses ↔
  p ≠ 0 ∧ ∃ results res,
    results ∈ responses ∧ res ∈ results ∧ metadata res !! "page" = Some p.
Proof.
  unfold surfaced_pages.
  rewrite elem_of_list_to_set, list_elem_of_omap. split.
  - intros (res & Hres & Hpage).
    apply list_elem_of_join in Hres as (results & Hres & Hresults).
    unfold truthy_page in Hpage.
    destruct (metadata res !! "page") as [q|] eqn:Hq; [|done].
    destruct (decide (q = 0)); simplify_eq. eauto 10.
  - intros (Hp & results & res & Hresults & Hres & Hpage).
    exists res. split.
    + apply list_elem_of_join. eauto.
    + unfold truthy_page. rewrite Hpage. by destruct (decide (p = 0)).
Qed.

End sorted_pages.

(** ** [get_document_pages] *)

Lemma where_matches_pages_filter page rest (md : gmap string Z) :
  where_matches (pages_filter (page :: rest)) md = true ↔
  ∃ i, i ∈ page :: rest ∧ md !! "page" = Some i.
Proof.
  destruct rest as [|page' rest].
  - cbn [pages_filter where_matches]. rewrite bool_decide_eq_true. split.
    + intros Hmd. exists page. split; [apply list_elem_of_here|done].
    + intros (i & ->%list_elem_of_singleton & Hmd). done.
  - set (pages := page :: page' :: rest).
    change (pages_filter pages) with (WhereOr ((λ i, ("page", i)) <$> pages)).
    cbn [where_matches]. rewrite existsb_exists. split.
    + intros ([key i] & Hin & Hmd). apply list_elem_of_In in Hin.
      apply list_elem_of_fmap in Hin as (j & [= -> ->] & Hj).
      apply bool_decide_eq_true in Hmd. eauto.
    + intros (i & Hi & Hmd). exists ("page", i). split.
      * apply list_elem_of_In, list_elem_of_fmap. eauto.
      * by apply bool_decide_eq_true.
Qed.

(** C6.  [get_document_pages([])] is the constant answer
    "No pages specified.": the tool is a bare return, so against any store
    it yields that string, issues no call and leaves the store's state
    untouched. *)
Theorem get_document_pages_empty {S} (vs : VectorStore S) (s : S) :
  get_document_pages [] = Return "No pages specified." ∧
  run vs (get_document_pages []) s = mkRun (Returned "No pages specified.") s [].
Proof. split; reflexivity. Qed.

(** C5.  For a singleton list [[p]] the one call that reaches the store is a
    [get] with the exact-match filter [page == p]; for a list of two or more
    pages it is a [get] with the disjunction of [page == i] over the
    elements, which a chunk's metadata satisfies exactly when its page is
    one of them; and in both cases, when the store's answer holds no
    document, the result is "No content found for pages: " followed by the
    requested list. *)
Theorem get_document_pages_filter_and_sentinel {S} (vs : VectorStore S) (s : S) :
  (∀ p, calls (run vs (get_document_pages [p]) s) = [CallGet (WhereEq "page" p)]) ∧
  (∀ p1 p2 rest,
     let pages := p1 :: p2 :: rest in
     calls (run vs (get_document_pages pages) s) =
       [CallGet (WhereOr ((λ i, ("page", i)) <$> pages))] ∧
     ∀ md, where_matches (WhereOr ((λ i, ("page", i)) <$> pages)) md = true ↔
           ∃ i, i ∈ pages ∧ md !! "page" = Some i) ∧
  (∀ p rest,
     let pages := p :: rest in
     documents (get vs (pages_filter pages) s).1 = [] →
     outcome (run vs (get_document_pages pages) s) =
       Returned ("No content found for pages: " +:+ Py.repr_int_list pages)).
Proof.
  split_and!.
  - intros p. apply calls_run_get_document_pages.
  - intros p1 p2 rest pages. split.
    + apply calls_run_get_document_pages.
    + intros md. apply (where_matches_pages_filter p1 (p2 :: rest)).
  - intros p rest pages Hempty. unfold pages in *.
    rewrite run_get_document_pages. cbn zeta.
    destruct (get vs _ s) as [context s']. cbn [fst] in Hempty.
    by rewrite Hempty.
Qed.

(** The sentinel of C5 for the page list [[7]], and for [[3, 5]]. *)
Example no_content_sentinel_7 :
  "No content found for pages: " +:+ Py.repr_int_list [7] =
  "No content found for pages: [7]".
Proof. reflexivity. Qed.

Example no_content_sentinel_3_5 :
  "No content found for pages: " +:+ Py.repr_int_list [3; 5] =
  "No content found for pages: [3, 5]".
Proof. reflexivity. Qed.

(** C8.  When one of the (document, metadata) pairs the store returned to
    [get_document_pages] has no "page" entry in its metadata, the call
    raises [KeyError('page')] instead of returning text; the other three
    tools return a string whatever the metadata of the chunks they are
    given, a chunk without page being labelled "unknown" by the two search
    tools and contributing no page to [find_pages_by_keywords]. *)
Theorem missing_page_raises_only_in_get_document_pages {S}
    (vs : VectorStore S) (s : S) :
  (∀ p rest doc md,
     let pages := p :: rest in
     let context := (get vs (pages_filter pages) s).1 in
     (doc, md) ∈ zip (documents context) (metadatas context) →
     md !! "page" = None →
     outcome (run vs (get_document_pages pages) s) = Raised (KeyError "page")) ∧
  (∀ query k, ∃ out,
     outcome (run vs (semantic_search query k) s) = Returned out) ∧
  (∀ query start_page end_page k, ∃ out,
     outcome (run vs (search_with_page_filter query start_page end_page k) s) =
       Returned out) ∧
  (∀ keywords, ∃ out,
     outcome (run vs (find_pages_by_keywords keywords) s) = Returned out) ∧
  (∀ res, metadata res !! "page" = None →
     page_label res = "unknown" ∧ truthy_page res = None).
Proof.
  split_and!.
  - intros p rest doc md pages context Hin Hmd. unfold pages, context in *.
    rewrite run_get_document_pages. cbn zeta.
    destruct (get vs _ s) as [ctx s']. cbn [fst] in Hin.
    destruct (documents ctx) as [|doc' docs] eqn:Hdocs.
    + by apply elem_of_nil in Hin.
    + unfold logged. cbn [outcome].
      by rewrite (run_render_pages_raises vs _ _ _ doc md).
  - intros query k. rewrite run_semantic_search.
    destruct (similarity_search vs query k s). eauto.
  - intros query start_page end_page k. rewrite run_search_with_page_filter.
    destruct (similarity_search vs query (k * 3) s). eauto.
  - intros [|keyword rest]; [by eexists|].
    rewrite run_find_pages_by_keywords. cbn zeta.
    destruct (keyword_results vs (keyword :: rest) s). eauto.
  - intros res Hpage. unfold page_label, truthy_page. by rewrite Hpage.
Qed.

(** C8 at a store whose [get] answers with one chunk that has no page. *)
Lemma missing_page_raises_witness :
  outcome
    (run (canned_store [] (mkGetResult ["text"] [∅])) (get_document_pages [3; 5]) ())
  = Raised (KeyError "page").
Proof.
  apply (proj1 (missing_page_raises_only_in_get_document_pages
                  (canned_store [] (mkGetResult ["text"] [∅])) ())
           3 [5] "text" ∅).
  - apply list_elem_of_here.
  - reflexivity.
Defined.

(** ** Content truncation *)

Lemma truncate_content_rule threshold content :
  truncation_rule threshold content (truncate_content threshold content).
Proof.
  split.
  - intros Hlong. by destruct (truncate_content_long _ _ Hlong) as (_ & ? & ?).
  - apply truncate_content_short.
Qed.

(** C4.  The output of [semantic_search] is its header followed by one entry
    per chunk the store returned, and the output of
    [search_with_page_filter] its header followed by one entry per chunk
    kept; the content block of an entry is the chunk's content cut at the
    tool's threshold (300, respectively 250): when the content is longer
    than the threshold the block has exactly threshold + 3 characters and
    ends with "...", and otherwise the block is the content unchanged. *)
Theorem content_truncation {S} (vs : VectorStore S) (s : S)
    query k start_page end_page :
  let found := (similarity_search vs query k s).1 in
  let filtered :=
    page_filtered start_page end_page k
      (similarity_search vs query (k * 3) s).1 in
  (∃ header,
     outcome (run vs (semantic_search query k) s) =
     Returned match found with
              | [] => "No results found for the query."
              | _ => header +:+ str_concat (numbered_entries 300 found)
              end) ∧
  (∃ header sentinel,
     outcome (run vs (search_with_page_filter query start_page end_page k) s) =
     Returned match filtered with
              | [] => sentinel
              | _ => header +:+ str_concat (numbered_entries 250 filtered)
              end) ∧
  (∀ threshold results i res,
     results !! i = Some res →
     ∃ block,
       numbered_entries threshold results !! i =
         Some (Py.str_int (Z.of_nat i + 1) +:+ ". [Page " +:+ page_label res
                 +:+ "]" +:+ Py.nl +:+ block +:+ Py.nl +:+ Py.nl) ∧
       truncation_rule threshold (page_content res) block).
Proof.
  intros found filtered. subst found filtered. split_and!.
  - rewrite run_semantic_search.
    destruct (similarity_search vs query k s) as [results s']. by eexists.
  - rewrite run_search_with_page_filter.
    destruct (similarity_search vs query (k * 3) s) as [results s'].
    by do 2 eexists.
  - intros threshold results i res Hres.
    exists (truncate_content threshold (page_content res)). split.
    + by apply numbered_entries_lookup.
    + apply truncate_content_rule.
Qed.

(** C4 on a chunk of 301 characters and on one of 300, for [semantic_search];
    on 251 and 250 for [search_with_page_filter]. *)
Example truncate_301_at_300 :
  truncate_content 300 (str_repeat "a" 301) = str_repeat "a" 300 +:+ "..." ∧
  String.length (truncate_content 300 (str_repeat "a" 301)) = 303%nat ∧
  truncate_content 300 (str_repeat "a" 300) = str_repeat "a" 300.
Proof. by vm_compute. Qed.

Example truncate_251_at_250 :
  truncate_content 250 (str_repeat "a" 251) = str_repeat "a" 250 +:+ "..." ∧
  String.length (truncate_content 250 (str_repeat "a" 251)) = 253%nat ∧
  truncate_content 250 (str_repeat "a" 250) = str_repeat "a" 250.
Proof. by vm_compute. Qed.

(** C5 at a store whose [get] finds nothing, for the page list [[7]]. *)
Lemma no_content_for_page_7_witness :
  outcome (run (canned_store [] (mkGetResult [] [])) (get_document_pages [7]) ())
  = Returned "No content found for pages: [7]".
Proof.
  apply (proj2 (proj2 (get_document_pages_filter_and_sentinel
                         (canned_store [] (mkGetResult [] [])) ())) 7 []).
  reflexivity.
Defined.

(** ** [search_with_page_filter] *)

Section page_filter.

Implicit Types (results : list Document) (res : Document).

Lemma page_filtered_nonneg start_page end_page k results :
  0 ≤ k →
  page_filtered start_page end_page k results =
  take (Z.to_nat k) (filter (in_page_range start_page end_page) results).
Proof.
  intros Hk. unfold page_filtered, Py.list_prefix.
  destruct (decide (0 ≤ k)); [done|lia].
Qed.

Lemma page_filtered_sublist start_page end_page k results :
  page_filtered start_page end_page k results `sublist_of` results.
Proof.
  unfold page_filtered, Py.list_prefix.
  destruct (decide (0 ≤ k));
    (etrans; [apply sublist_take|apply sublist_filter]).
Qed.

Lemma page_filtered_in_range start_page end_page k results res :
  res ∈ page_filtered start_page end_page k results →
  in_page_range start_page end_page res.
Proof.
  unfold page_filtered, Py.list_prefix.
  destruct (decide (0 ≤ k)); intros Hin;
    apply subseteq_take in Hin; by apply list_elem_of_filter in Hin as [? _].
Qed.

Lemma in_page_range_no_page start_page end_page res :
  metadata res !! "page" = None →
  in_page_range start_page end_page res ↔ start_page ≤ 0 ≤ end_page.
Proof. intros Hpage. unfold in_page_range. by rewrite Hpage. Qed.

Lemma in_page_range_page start_page end_page res p :
  metadata res !! "page" = Some p →
  in_page_range start_page end_page res ↔ start_page ≤ p ≤ end_page.
Proof. intros Hpage. unfold in_page_range. by rewrite Hpage. Qed.

End page_filter.

(** C1, as amended.  For start_page <= end_page and k >= 1,
    [search_with_page_filter] issues exactly one call, a similarity search
    for [k * 3] results; it keeps the chunks whose page, read as 0 when the
    chunk has no page entry, lies in [[start_page, end_page]], and of these
    the first [k], in the order the store ranked them; the output renders
    these chunks and no other.  So at most [k] results are returned, and no
    returned chunk has a page outside the range; a returned chunk without a
    page entry occurs only when 0 lies in the range. *)
Theorem search_with_page_filter_range {S} (vs : VectorStore S) (s : S)
    query start_page end_page k :
  start_page ≤ end_page → 1 ≤ k →
  let results := (similarity_search vs query (k * 3) s).1 in
  let filtered :=
    take (Z.to_nat k) (filter (in_page_range start_page end_page) results) in
  let range := Py.str_int start_page +:+ "-" +:+ Py.str_int end_page in
  calls (run vs (search_with_page_filter query start_page end_page k) s) =
    [CallSimilaritySearch query (k * 3)] ∧
  outcome (run vs (search_with_page_filter query start_page end_page k) s) =
    Returned
      match filtered with
      | [] => "No results found in pages " +:+ range +:+ "."
      | _ =>
          ("Found " +:+ Py.str_int (Z.of_nat (length filtered))
             +:+ " results in pages " +:+ range +:+ ":" +:+ Py.nl +:+ Py.nl)
            +:+ str_concat (numbered_entries 250 filtered)
      end ∧
  (∀ res, in_page_range start_page end_page res ↔
          start_page ≤ default 0 (metadata res !! "page") ≤ end_page) ∧
  Z.of_nat (length filtered) ≤ k ∧
  filtered `sublist_of` results ∧
  (∀ res p, res ∈ filtered → metadata res !! "page" = Some p →
            start_page ≤ p ≤ end_page) ∧
  (∀ res, res ∈ filtered → metadata res !! "page" = None →
          start_page ≤ 0 ≤ end_page).
Proof.
  intros _ Hk results filtered range.
  assert (Hfiltered : page_filtered start_page end_page k results = filtered)
    by (apply page_filtered_nonneg; lia).
  rewrite run_search_with_page_filter. subst results.
  destruct (similarity_search vs query (k * 3) s) as [results s'].
  cbn [fst] in *. cbn zeta. rewrite Hfiltered. split_and!.
  - done.
  - done.
  - done.
  - subst filtered. rewrite length_take. lia.
  - rewrite <-Hfiltered. apply page_filtered_sublist.
  - intros res p Hres Hpage. rewrite <-Hfiltered in Hres.
    apply page_filtered_in_range in Hres. by apply (in_page_range_page _ _ res).
  - intros res Hres Hpage. rewrite <-Hfiltered in Hres.
    apply page_filtered_in_range in Hres. by apply (in_page_range_no_page _ _ res).
Qed.

(** C1 on pages 10 to 20 with k = 3: of nine ranked chunks, five are in
    range and the first three of them are returned, in rank order. *)
Lemma search_with_page_filter_range_witness :
  let results :=
    [chunk "a" (Some 25); chunk "b" (Some 12); chunk "c" None;
     chunk "d" (Some 20); chunk "e" (Some 9); chunk "f" (Some 10);
     chunk "g" (Some 15); chunk "h" (Some 21); chunk "i" (Some 11)] in
  let vs := canned_store results (mkGetResult [] []) in
  calls (run vs (search_with_page_filter "q" 10 20 3) ()) =
    [CallSimilaritySearch "q" 9] ∧
  take 3 (filter (in_page_range 10 20) results) =
    [chunk "b" (Some 12); chunk "d" (Some 20); chunk "f" (Some 10)] ∧
  Z.of_nat (length (take 3 (filter (in_page_range 10 20) results))) ≤ 3.
Proof.
  intros results vs.
  pose proof (search_with_page_filter_range vs () "q" 10 20 3
                ltac:(lia) ltac:(lia)) as (Hcalls & _ & _ & Hlen & _).
  split_and!; [exact Hcalls|reflexivity|exact Hlen].
Defined.

(** The statement of C1 fails on a chunk without page entry: asked for pages
    0 to 5 with k = 1, the tool keeps and returns such a chunk, whose page
    metadata does not lie in the range. *)
Lemma page_filter_keeps_chunk_without_page :
  let res := chunk "text" None in
  let vs := canned_store [res] (mkGetResult [] []) in
  outcome (run vs (search_with_page_filter "q" 0 5 1) ()) =
    Returned ("Found 1 results in pages 0-5:" +:+ Py.nl +:+ Py.nl
                +:+ "1. [Page unknown]" +:+ Py.nl +:+ "text" +:+ Py.nl +:+ Py.nl) ∧
  ¬ (∀ kept, kept ∈ page_filtered 0 5 1 [res] →
             ∃ p, metadata kept !! "page" = Some p ∧ 0 ≤ p ≤ 5).
Proof.
  intros res vs. split; [reflexivity|].
  intros Hclaim. destruct (Hclaim res) as (p & Hp & _).
  - apply list_elem_of_here.
  - discriminate Hp.
Qed.

Section page_zero.

Implicit Types (results : list Document) (res : Document).

Lemma in_page_range_as_page_zero start_page end_page res :
  in_page_range start_page end_page (as_page_zero res) ↔
  in_page_range start_page end_page res.
Proof.
  unfold as_page_zero.
  destruct (metadata res !! "page") as [p|] eqn:Hpage; [done|].
  unfold in_page_range. cbn [metadata]. by rewrite lookup_insert_eq, Hpage.
Qed.

Lemma filter_fmap_preserved {A} (P : A → Prop) `{!∀ x, Decision (P x)}
    (f : A → A) (l : list A) :
  (∀ x, P (f x) ↔ P x) → filter P (f <$> l) = f <$> filter P l.
Proof.
  intros Hf. induction l as [|x l IH]; [done|].
  cbn [fmap list_fmap]. rewrite !filter_cons, IH.
  destruct (decide (P (f x))) as [HP|HP], (decide (P x)) as [HP'|HP'];
    try done; exfalso; [apply HP', Hf, HP|apply HP, Hf, HP'].
Qed.

Lemma list_prefix_fmap {A B} (f : A → B) k (l : list A) :
  Py.list_prefix k (f <$> l) = f <$> Py.list_prefix k l.
Proof.
  unfold Py.list_prefix. rewrite length_fmap.
  destruct (decide (0 ≤ k)); by rewrite fmap_take.
Qed.

Lemma page_filtered_as_page_zero start_page end_page k results :
  page_filtered start_page end_page k (as_page_zero <$> results) =
  as_page_zero <$> page_filtered start_page end_page k results.
Proof.
  unfold page_filtered. rewrite filter_fmap_preserved.
  - apply list_prefix_fmap.
  - intros res. apply in_page_range_as_page_zero.
Qed.

Lemma take_min_length {A} n (l : list A) :
  take (n `min` length l) l = take n l.
Proof.
  destruct (decide (n ≤ length l)%nat).
  - by rewrite Nat.min_l.
  - rewrite Nat.min_r by lia. by rewrite !take_ge by lia.
Qed.

Lemma list_prefix_take {A} k (l : list A) :
  Py.list_prefix k l = take (length (Py.list_prefix k l)) l.
Proof.
  unfold Py.list_prefix. destruct (decide (0 ≤ k));
    by rewrite length_take, take_min_length.
Qed.

Lemma list_prefix_lookup {A} k (l : list A) i x :
  Py.list_prefix k l !! i = Some x ↔
  l !! i = Some x ∧ (i < length (Py.list_prefix k l))%nat.
Proof.
  rewrite (list_prefix_take k l) at 1. rewrite lookup_take_Some. tauto.
Qed.

Lemma length_list_prefix {A} k (l : list A) :
  length (Py.list_prefix k l) =
  if decide (0 ≤ k) then (Z.to_nat k `min` length l)%nat
  else (length l - Z.to_nat (- k))%nat.
Proof.
  unfold Py.list_prefix. destruct (decide (0 ≤ k)); rewrite length_take; lia.
Qed.

End page_zero.

(** C9.  In [search_with_page_filter] a chunk whose metadata has no "page"
    entry is ranged as a chunk of page 0.  It passes the range test exactly
    when start_page <= 0 <= end_page; the whole selection, range test and
    cut to [k], picks the same positions of the store's answer when every
    such chunk is replaced by a chunk of page 0; so it is excluded whenever
    0 is outside the range and, when 0 is inside, it is among the chunks
    that pass and is returned at its position among them like any chunk
    that passes, the cut keeping the first positions only.  Where it is
    returned, the output of the tool shows it as "[Page unknown]". *)
Theorem chunk_without_page_treated_as_page_zero {S} (vs : VectorStore S) (s : S)
    query start_page end_page k :
  let results := (similarity_search vs query (k * 3) s).1 in
  let passing := filter (in_page_range start_page end_page) results in
  let filtered := page_filtered start_page end_page k results in
  let range := Py.str_int start_page +:+ "-" +:+ Py.str_int end_page in
  outcome (run vs (search_with_page_filter query start_page end_page k) s) =
    Returned
      match filtered with
      | [] => "No results found in pages " +:+ range +:+ "."
      | _ =>
          ("Found " +:+ Py.str_int (Z.of_nat (length filtered))
             +:+ " results in pages " +:+ range +:+ ":" +:+ Py.nl +:+ Py.nl)
            +:+ str_concat (numbered_entries 250 filtered)
      end ∧
  page_filtered start_page end_page k (as_page_zero <$> results) =
    as_page_zero <$> filtered ∧
  (∀ i res, filtered !! i = Some res ↔
            passing !! i = Some res ∧ (i < length filtered)%nat) ∧
  length filtered =
    (if decide (0 ≤ k) then (Z.to_nat k `min` length passing)%nat
     else (length passing - Z.to_nat (- k))%nat) ∧
  ∀ res, metadata res !! "page" = None →
    (in_page_range start_page end_page res ↔ start_page ≤ 0 ≤ end_page) ∧
    (res ∈ passing ↔ res ∈ results ∧ start_page ≤ 0 ≤ end_page) ∧
    (¬ start_page ≤ 0 ≤ end_page → res ∉ filtered) ∧
    (∀ i, filtered !! i = Some res →
          numbered_entries 250 filtered !! i =
          Some (Py.str_int (Z.of_nat i + 1) +:+ ". [Page unknown]" +:+ Py.nl
                  +:+ truncate_content 250 (page_content res)
                  +:+ Py.nl +:+ Py.nl)).
Proof.
  intros results passing filtered range. split_and!.
  - rewrite run_search_with_page_filter. subst filtered results.
    by destruct (similarity_search vs query (k * 3) s).
  - apply page_filtered_as_page_zero.
  - intros i res. apply list_prefix_lookup.
  - apply length_list_prefix.
  - intros res Hpage. split_and!.
    + by apply in_page_range_no_page.
    + unfold passing. rewrite list_elem_of_filter.
      rewrite (in_page_range_no_page _ _ res) by done. tauto.
    + intros Hout Hin. apply Hout.
      apply page_filtered_in_range in Hin.
      by apply (in_page_range_no_page _ _ res).
    + intros i Hi. rewrite (numbered_entries_lookup _ _ _ _ Hi).
      unfold render_entry, page_label. by rewrite Hpage.
Qed.

(** C9 on the range 0 to 5 with k = 2, against an answer of three chunks
    that all pass the test, the second without page: two chunks are
    returned, and the entry of the second reads "[Page unknown]". *)
Lemma chunk_without_page_treated_as_page_zero_witness :
  let res := chunk "second" None in
  let results := [chunk "first" (Some 2); res; chunk "third" (Some 3)] in
  (in_page_range 0 5 res ↔ 0 ≤ 0 ≤ 5) ∧
  length (page_filtered 0 5 2 results) = 2%nat ∧
  numbered_entries 250 (page_filtered 0 5 2 results) !! 1%nat =
    Some ("2. [Page unknown]" +:+ Py.nl +:+ "second" +:+ Py.nl +:+ Py.nl).
Proof.
  intros res results.
  destruct (chunk_without_page_treated_as_page_zero
              (canned_store results (mkGetResult [] [])) () "q" 0 5 2)
    as (_ & _ & _ & Hlen & Hres).
  destruct (Hres res eq_refl) as (Hrange & _ & _ & Hshown).
  split_and!; [exact Hrange|exact Hlen|exact (Hshown 1%nat eq_refl)].
Defined.

(** The same answer on the range 0 to 5:
    with k = 2 it is returned second and shown as "[Page unknown]";
    with k = 1 it is cut, as the chunk of page 0 in its place would be; on
    the range 1 to 5 it is excluded. *)
Example chunk_without_page_in_range_0_5 :
  let results := [chunk "first" (Some 2); chunk "second" None; chunk "third" (Some 3)] in
  let vs := canned_store results (mkGetResult [] []) in
  outcome (run vs (search_with_page_filter "q" 0 5 2) ()) =
    Returned ("Found 2 results in pages 0-5:" +:+ Py.nl +:+ Py.nl
                +:+ "1. [Page 2]" +:+ Py.nl +:+ "first" +:+ Py.nl +:+ Py.nl
                +:+ "2. [Page unknown]" +:+ Py.nl +:+ "second" +:+ Py.nl +:+ Py.nl) ∧
  page_filtered 0 5 1 results = [chunk "first" (Some 2)] ∧
  page_filtered 0 5 1 (as_page_zero <$> results) = [chunk "first" (Some 2)] ∧
  page_filtered 1 5 3 results = [chunk "first" (Some 2); chunk "third" (Some 3)].
Proof. by vm_compute. Qed.

(** ** The store after a call *)

Section frame.

Context {S : Type} (vs : VectorStore S).

(** A tool changes the store's state only through the queries it issues. *)
Lemma final_state_replay {A} (t : Tool A) s :
  final_state (run vs t s) = replay vs (calls (run vs t s)) s.
Proof.
  revert s. induction t as [a|e|query k cont IH|where_ cont IH]; intros s.
  - done.
  - done.
  - cbn [run]. destruct (similarity_search vs query k s) as [results s'] eqn:E.
    unfold logged. cbn [final_state calls replay]. by rewrite E, IH.
  - cbn [run]. destruct (get vs where_ s) as [context s'] eqn:E.
    unfold logged. cbn [final_state calls replay]. by rewrite E, IH.
Qed.

Lemma replay_read_only cs s : read_only vs → replay vs cs s = s.
Proof.
  intros [Hsearch Hget]. induction cs as [|[query k|where_] cs IH]; [done|..].
  - cbn [replay]. by rewrite Hsearch.
  - cbn [replay]. by rewrite Hget.
Qed.

Lemma final_state_read_only {A} (t : Tool A) s :
  read_only vs → final_state (run vs t s) = s.
Proof. intros Hro. rewrite final_state_replay. by apply replay_read_only. Qed.

End frame.

(** ** [find_pages_by_keywords] *)


(** C3 at the failing input: two keywords, each answered with a chunk of
    page 0 and a chunk of page 4.  Page 4 is listed once; page 0, found for
    both keywords, is not listed at all. *)
Theorem find_pages_by_keywords_drops_page_zero :
  let results := [chunk "intro" (Some 0); chunk "body" (Some 4)] in
  let vs := canned_store results (mkGetResult [] []) in
  run vs (find_pages_by_keywords ["alpha"; "beta"]) () =
  mkRun
    (Returned ("Found 1 pages containing keywords ['alpha', 'beta']:" +:+ Py.nl
                 +:+ "Pages: [4]"))
    ()
    [CallSimilaritySearch "alpha" 10; CallSimilaritySearch "beta" 10].
Proof. vm_compute. reflexivity. Qed.

(** C10.  The page set [find_pages_by_keywords] collects never holds 0: a
    page [p] is collected exactly when it is nonzero and some chunk of some
    keyword's answer has [page = p].  A chunk contributes nothing when its
    page entry is missing and also when it is present and 0, the two cases
    being told apart nowhere; the output is rendered from the set so
    collected. *)
Theorem find_pages_by_keywords_skips_page_zero {S} (vs : VectorStore S) (s : S)
    keyword rest :
  let keywords := keyword :: rest in
  let responses := (keyword_results vs keywords s).1 in
  let all_pages := surfaced_pages responses in
  outcome (run vs (find_pages_by_keywords keywords) s) =
    Returned
      (if decide (all_pages = ∅)
       then "No pages found containing keywords: " +:+ Py.repr_str_list keywords
       else
         let sorted_pages := Py.sorted (elements all_pages) in
         "Found " +:+ Py.str_int (Z.of_nat (length sorted_pages))
           +:+ " pages containing keywords " +:+ Py.repr_str_list keywords
           +:+ ":" +:+ Py.nl +:+ "Pages: " +:+ Py.repr_int_list sorted_pages) ∧
  (0 ∉ all_pages) ∧
  (∀ p, p ∈ all_pages ↔
        p ≠ 0 ∧ ∃ results res,
          results ∈ responses ∧ res ∈ results ∧ metadata res !! "page" = Some p) ∧
  (∀ res, truthy_page res = None ↔
          metadata res !! "page" = None ∨ metadata res !! "page" = Some 0) ∧
  (∀ res p, truthy_page res = Some p ↔
            metadata res !! "page" = Some p ∧ p ≠ 0).
Proof.
  intros keywords responses all_pages. subst keywords responses all_pages.
  rewrite run_find_pages_by_keywords. cbn zeta.
  destruct (keyword_results vs (keyword :: rest) s) as [responses s'].
  cbn [fst outcome]. split_and!.
  - done.
  - rewrite elem_of_surfaced_pages. by intros [? _].
  - apply elem_of_surfaced_pages.
  - intros res. unfold truthy_page.
    destruct (metadata res !! "page") as [p|]; [|by split; [left|]].
    destruct (decide (p = 0)) as [->|Hp].
    + split; [by right|done].
    + split; [done|]. intros [?|[= ?]]; done.
  - intros res p. unfold truthy_page.
    destruct (metadata res !! "page") as [q|]; [|by split; [|intros [? _]]].
    destruct (decide (q = 0)) as [->|Hq].
    + split; [done|]. by intros [[= <-] ?].
    + split; [by intros [= <-]|by intros [[= <-] _]].
Qed.

(** C10 on a store whose chunks all carry [page = 0], and on one whose
    chunks have no page entry: the same answer. *)
Example only_page_zero_found :
  outcome (run (canned_store [chunk "intro" (Some 0)] (mkGetResult [] []))
             (find_pages_by_keywords ["alpha"]) ())
  = Returned "No pages found containing keywords: ['alpha']" ∧
  outcome (run (canned_store [chunk "intro" None] (mkGetResult [] []))
             (find_pages_by_keywords ["alpha"]) ())
  = Returned "No pages found containing keywords: ['alpha']".
Proof. split; vm_compute; reflexivity. Qed.

(** ** The tools on small stores *)

Example semantic_search_two_chunks :
  run (canned_store [chunk "hello" (Some 4); chunk "world" None]
         (mkGetResult [] []))
    (semantic_search "q" 5) ()
  = mkRun
      (Returned ("Found 2 relevant passages:" +:+ Py.nl +:+ Py.nl
                   +:+ "1. [Page 4]" +:+ Py.nl +:+ "hello" +:+ Py.nl +:+ Py.nl
                   +:+ "2. [Page unknown]" +:+ Py.nl +:+ "world" +:+ Py.nl +:+ Py.nl))
      () [CallSimilaritySearch "q" 5].
Proof. vm_compute. reflexivity. Qed.

Example semantic_search_no_chunk :
  run (canned_store [] (mkGetResult [] [])) (semantic_search "q" 5) ()
  = mkRun (Returned "No results found for the query.") ()
      [CallSimilaritySearch "q" 5].
Proof. reflexivity. Qed.

Example get_document_pages_two_pages :
  run list_store (get_document_pages [3; 5])
    [chunk "three" (Some 3); chunk "four" (Some 4); chunk "five" (Some 5)]
  = mkRun
      (Returned ("=== Page 3 ===" +:+ Py.nl +:+ "three" +:+ Py.nl +:+ Py.nl
                   +:+ "=== Page 5 ===" +:+ Py.nl +:+ "five" +:+ Py.nl +:+ Py.nl))
      [chunk "three" (Some 3); chunk "four" (Some 4); chunk "five" (Some 5)]
      [CallGet (WhereOr [("page", 3); ("page", 5)])].
Proof. vm_compute. reflexivity. Qed.

Example find_pages_by_keywords_shared_page :
  outcome
    (run (canned_store [chunk "x" (Some 12); chunk "y" (Some 4); chunk "z" (Some 4)]
            (mkGetResult [] []))
       (find_pages_by_keywords ["alpha"; "beta"]) ())
  = Returned ("Found 2 pages containing keywords ['alpha', 'beta']:" +:+ Py.nl
                +:+ "Pages: [4, 12]").
Proof. vm_compute. reflexivity. Qed.

Example repr_str_plain : Py.repr_str "alpha" = "'alpha'".
Proof. reflexivity. Qed.

Example repr_str_single_quote :
  Py.repr_str "it's" = String Py.dquote ("it's" +:+ String Py.dquote EmptyString).
Proof. reflexivity. Qed.

Example repr_str_newline :
  Py.repr_str ("a" +:+ Py.nl +:+ "b") = "'a\nb'".
Proof. reflexivity. Qed.

Example list_prefix_negative : Py.list_prefix (-1) [1; 2; 3] = [1; 2].
Proof. reflexivity. Qed.

(** ** The text of [get_document_pages] *)

Section pages_text.

Context {S : Type} (vs : VectorStore S).

Lemma run_render_pages pairs text s :
  run vs (render_pages pairs text) s =
  mkRun
    match page_blocks pairs with
    | Some blocks => Returned (text +:+ str_concat blocks)
    | None => Raised (KeyError "page")
    end s [].
Proof.
  revert text. induction pairs as [|[doc md] pairs IH]; intros text.
  - cbn. by rewrite append_empty_r.
  - cbn [render_pages page_blocks].
    destruct (md !! "page") as [page|]; [|done].
    rewrite IH. destruct (page_blocks pairs) as [blocks|]; [|done].
    cbn [str_concat foldr]. unfold page_block. by rewrite !append_assoc.
Qed.

Lemma page_blocks_None pairs :
  page_blocks pairs = None ↔ ∃ doc md, (doc, md) ∈ pairs ∧ md !! "page" = None.
Proof.
  induction pairs as [|[doc md] pairs IH]; cbn [page_blocks].
  - split; [done|]. intros (? & ? & Hin & _). by apply elem_of_nil in Hin.
  - destruct (md !! "page") as [page|] eqn:Hpage.
    + destruct (page_blocks pairs) as [blocks|].
      * split; [done|]. intros (doc' & md' & Hin & Hmd).
        apply elem_of_cons in Hin as [[= -> ->]|Hin]; [congruence|].
        assert (Some blocks = None) as [=]. apply IH. by exists doc', md'.
      * split; [|done]. intros _.
        destruct (proj1 IH eq_refl) as (doc' & md' & Hin & Hmd).
        exists doc', md'. split; [by apply list_elem_of_further|done].
    + split; [|done]. intros _. exists doc, md.
      split; [apply list_elem_of_here|done].
Qed.

Lemma page_blocks_Some pairs :
  (∀ doc md, (doc, md) ∈ pairs → is_Some (md !! "page")) →
  page_blocks pairs =
  Some ((λ pair, page_block (default 0 (pair.2 !! "page")) pair.1) <$> pairs).
Proof.
  induction pairs as [|[doc md] pairs IH]; intros Hall; [done|].
  cbn [page_blocks]. destruct (Hall doc md) as [page Hpage];
    [apply list_elem_of_here|].
  rewrite Hpage, IH.
  - cbn. by rewrite Hpage.
  - intros doc' md' Hin. apply (Hall doc' md'). by apply list_elem_of_further.
Qed.

Lemma outcome_get_document_pages page rest s :
  let pages := page :: rest in
  let context := (get vs (pages_filter pages) s).1 in
  outcome (run vs (get_document_pages pages) s) =
  match documents context with
  | [] => Returned ("No content found for pages: " +:+ Py.repr_int_list pages)
  | _ =>
      match page_blocks (zip (documents context) (metadatas context)) with
      | Some blocks => Returned (str_concat blocks)
      | None => Raised (KeyError "page")
      end
  end.
Proof.
  cbn zeta. rewrite run_get_document_pages. cbn zeta.
  destruct (get vs _ s) as [context s']. cbn [fst].
  destruct (documents context) as [|doc docs]; [done|].
  unfold logged. cbn [outcome]. by rewrite run_render_pages.
Qed.

End pages_text.

Lemma page_blocks_text_head pairs blocks :
  page_blocks pairs = Some blocks →
  str_concat blocks = EmptyString ∨ ∃ rest, str_concat blocks = String "=" rest.
Proof.
  destruct pairs as [|[doc md] pairs]; cbn [page_blocks].
  - intros [= <-]. by left.
  - destruct (md !! "page") as [page|]; [|done].
    destruct (page_blocks pairs) as [bs|]; [|done].
    intros [= <-]. right. cbn [str_concat foldr]. unfold page_block.
    rewrite !append_assoc, append_cons. by eexists.
Qed.

(** X1.  When the store's answer to [get_document_pages] holds at least one
    document, the call is all or nothing: it raises [KeyError('page')]
    exactly when one of the zipped (document, metadata) pairs has no page
    entry, and when every pair has one it returns the blocks
    "=== Page p ===", newline, the document in full, two newlines, one per
    pair and in the store's order.  The pairs are those of [zip]: documents
    beyond the number of metadata dicts are neither rendered nor checked. *)
Theorem get_document_pages_text {S} (vs : VectorStore S) (s : S) page rest :
  let pages := page :: rest in
  let context := (get vs (pages_filter pages) s).1 in
  let pairs := zip (documents context) (metadatas context) in
  documents context ≠ [] →
  (outcome (run vs (get_document_pages pages) s) = Raised (KeyError "page") ↔
   ∃ doc md, (doc, md) ∈ pairs ∧ md !! "page" = None) ∧
  ((∀ doc md, (doc, md) ∈ pairs → is_Some (md !! "page")) →
   outcome (run vs (get_document_pages pages) s) =
   Returned
     (str_concat
        ((λ pair, page_block (default 0 (pair.2 !! "page")) pair.1) <$> pairs))) ∧
  length pairs = (length (documents context) `min` length (metadatas context))%nat.
Proof.
  intros pages context pairs Hdocs.
  assert (outcome (run vs (get_document_pages pages) s) =
          match page_blocks pairs with
          | Some blocks => Returned (str_concat blocks)
          | None => Raised (KeyError "page")
          end) as ->.
  { unfold pages. rewrite outcome_get_document_pages. cbn zeta.
    fold pages context. by destruct (documents context). }
  split_and!.
  - rewrite <-page_blocks_None. by destruct (page_blocks pairs).
  - intros Hall. by rewrite page_blocks_Some.
  - unfold pairs. apply length_zip_with.
Qed.

(** X1 on an answer of two documents and one metadata dict: the first
    document is rendered in full, the second has no partner and is left
    out. *)
Lemma get_document_pages_text_witness :
  outcome
    (run (canned_store [] (mkGetResult ["first"; "second"] [{[ "page" := 3 ]}]))
       (get_document_pages [3]) ())
  = Returned ("=== Page 3 ===" +:+ Py.nl +:+ "first" +:+ Py.nl +:+ Py.nl).
Proof.
  apply (proj1 (proj2 (get_document_pages_text
           (canned_store [] (mkGetResult ["first"; "second"] [{[ "page" := 3 ]}]))
           () 3 [] ltac:(done)))).
  intros doc md [[= -> ->]|Hin]%elem_of_cons; [by eexists|].
  by apply elem_of_nil in Hin.
Defined.

(** Two outcomes whose strings differ on a character of their literal
    beginnings are different. *)
Ltac strings_differ :=
  let H := fresh "Heq" in
  intros H; exfalso;
  first [ discriminate H
        | rewrite ?append_assoc, ?append_cons in H; discriminate H ].

(** X2.  The two sentinels of [get_document_pages] are unambiguous:
    "No pages specified." is returned exactly for the empty list, and
    "No content found for pages: " followed by the list exactly when the
    list is non-empty and the store's answer holds no document.  A text
    built from documents is empty or starts with "=", so it is never one of
    them. *)
Theorem get_document_pages_sentinels {S} (vs : VectorStore S) (s : S) pages :
  (outcome (run vs (get_document_pages pages) s) =
     Returned "No pages specified." ↔ pages = []) ∧
  (outcome (run vs (get_document_pages pages) s) =
     Returned ("No content found for pages: " +:+ Py.repr_int_list pages) ↔
   pages ≠ [] ∧ documents (get vs (pages_filter pages) s).1 = []).
Proof.
  destruct pages as [|page rest].
  - split; [done|]. split; [strings_differ|by intros [? _]].
  - rewrite outcome_get_document_pages. cbn zeta.
    destruct (documents _) as [|doc docs].
    + split; [|done]. split; [strings_differ|done].
    + destruct (page_blocks _) as [blocks|] eqn:Eblocks.
      * apply page_blocks_text_head in Eblocks as [->|[tail ->]];
          (split; (split; [strings_differ|]); [done|by intros [_ ?]]).
      * split; (split; [strings_differ|]); [done|by intros [_ ?]].
Qed.

(** ** More on [search_with_page_filter] *)

Lemma filter_in_page_range_inverted start_page end_page (results : list Document) :
  end_page < start_page →
  filter (in_page_range start_page end_page) results = [].
Proof.
  intros Hinv. induction results as [|res results IH]; [done|].
  rewrite filter_cons, IH.
  destruct (decide (in_page_range start_page end_page res)) as [[? ?]|]; [lia|done].
Qed.

Lemma list_prefix_nil {A} k : Py.list_prefix k (@nil A) = [].
Proof. unfold Py.list_prefix. destruct (decide (0 ≤ k)); by rewrite take_nil. Qed.

(** X3.  With an inverted range, end_page < start_page, no page passes the
    test: [search_with_page_filter] still sends its one search for [k * 3]
    results to the store and then returns "No results found in pages
    start-end.", whatever the store answers and whatever [k] is. *)
Theorem search_with_page_filter_inverted_range {S} (vs : VectorStore S) (s : S)
    query start_page end_page k :
  end_page < start_page →
  outcome (run vs (search_with_page_filter query start_page end_page k) s) =
    Returned ("No results found in pages " +:+ Py.str_int start_page +:+ "-"
                +:+ Py.str_int end_page +:+ ".") ∧
  calls (run vs (search_with_page_filter query start_page end_page k) s) =
    [CallSimilaritySearch query (k * 3)].
Proof.
  intros Hinv. rewrite run_search_with_page_filter.
  destruct (similarity_search vs query (k * 3) s) as [results s']. cbn zeta.
  unfold page_filtered.
  rewrite filter_in_page_range_inverted by done. rewrite list_prefix_nil.
  cbn [outcome calls]. by rewrite !append_assoc.
Qed.

(** X3 on the range 20 to 10, against a store holding a chunk of page 15. *)
Lemma search_with_page_filter_inverted_range_witness :
  outcome
    (run (canned_store [chunk "text" (Some 15)] (mkGetResult [] []))
       (search_with_page_filter "q" 20 10 3) ())
  = Returned "No results found in pages 20-10.".
Proof.
  apply (proj1 (search_with_page_filter_inverted_range
                  (canned_store [chunk "text" (Some 15)] (mkGetResult [] []))
                  () "q" 20 10 3 ltac:(lia))).
Defined.

(** X4.  For k >= 1, [search_with_page_filter] returns exactly
    min(k, n) chunks, n being the number of chunks of the store's answer
    that pass the range test: when n = 0 its output is
    "No results found in pages start-end.", and otherwise its output
    announces "Found min(k, n) results" and consists of that header
    followed by min(k, n) numbered entries, those of the first min(k, n)
    chunks that pass, in the store's order.  When n <= k every chunk that
    passes is rendered.  The "No results" answer is given exactly when no
    chunk of the store's answer passes the test. *)
Theorem search_with_page_filter_count {S} (vs : VectorStore S) (s : S)
    query start_page end_page k :
  1 ≤ k →
  let results := (similarity_search vs query (k * 3) s).1 in
  let in_range := filter (in_page_range start_page end_page) results in
  let m := (Z.to_nat k `min` length in_range)%nat in
  let range := Py.str_int start_page +:+ "-" +:+ Py.str_int end_page in
  outcome (run vs (search_with_page_filter query start_page end_page k) s) =
    Returned
      match in_range with
      | [] => "No results found in pages " +:+ range +:+ "."
      | _ =>
          ("Found " +:+ Py.str_int (Z.of_nat m)
             +:+ " results in pages " +:+ range +:+ ":" +:+ Py.nl +:+ Py.nl)
            +:+ str_concat (numbered_entries 250 (take m in_range))
      end ∧
  length (numbered_entries 250 (take m in_range)) = m ∧
  (∀ i res, take m in_range !! i = Some res →
     numbered_entries 250 (take m in_range) !! i =
     Some (render_entry 250 (Z.of_nat i + 1) res)) ∧
  ((length in_range ≤ Z.to_nat k)%nat → take m in_range = in_range) ∧
  (outcome (run vs (search_with_page_filter query start_page end_page k) s) =
     Returned ("No results found in pages " +:+ range +:+ ".") ↔
   ∀ res, res ∈ results → ¬ in_page_range start_page end_page res).
Proof.
  intros Hk results in_range m range.
  assert (Hfiltered : page_filtered start_page end_page k results =
                      take m in_range).
  { rewrite page_filtered_nonneg by lia. fold in_range. unfold m.
    destruct (decide (Z.to_nat k ≤ length in_range)%nat).
    - by rewrite Nat.min_l.
    - rewrite Nat.min_r by lia. by rewrite !take_ge by lia. }
  assert (Hlen : length (take m in_range) = m)
    by (rewrite length_take; unfold m; lia).
  assert (Hout :
    outcome (run vs (search_with_page_filter query start_page end_page k) s) =
    Returned
      match in_range with
      | [] => "No results found in pages " +:+ range +:+ "."
      | _ =>
          ("Found " +:+ Py.str_int (Z.of_nat m)
             +:+ " results in pages " +:+ range +:+ ":" +:+ Py.nl +:+ Py.nl)
            +:+ str_concat (numbered_entries 250 (take m in_range))
      end).
  { rewrite run_search_with_page_filter. fold results.
    destruct (similarity_search vs query (k * 3) s) as [rs s'].
    cbn [fst] in results. cbn zeta. fold results. rewrite Hfiltered.
    cbn [outcome]. rewrite Hlen.
    destruct in_range as [|res rest] eqn:E; [by rewrite take_nil|].
    destruct (take m (res :: rest)) as [|res' rest'] eqn:Etake; [|done].
    exfalso. cbn [length] in Hlen. subst m. cbn [length] in Hlen. lia. }
  split_and!.
  - exact Hout.
  - unfold numbered_entries. by rewrite length_imap.
  - intros i res Hi. by apply numbered_entries_lookup.
  - intros Hle. apply take_ge. unfold m. lia.
  - rewrite Hout. split.
    + destruct in_range as [|res rest] eqn:E; [|strings_differ].
      intros _ res Hres Hrange.
      assert (Hin : res ∈ in_range) by (by apply list_elem_of_filter).
      rewrite E in Hin. by apply elem_of_nil in Hin.
    + intros Hnone. destruct in_range as [|res rest] eqn:E; [done|].
      assert (Hin : res ∈ in_range) by (rewrite E; apply list_elem_of_here).
      apply list_elem_of_filter in Hin as [Hrange Hres].
      by destruct (Hnone res).
Qed.

(** X4 with k = 2 on an answer of six chunks, three of them on pages 10 to
    20: the tool announces and renders two, the first two that pass. *)
Lemma search_with_page_filter_count_witness :
  let results :=
    [chunk "a" (Some 25); chunk "b" (Some 12); chunk "c" None;
     chunk "d" (Some 20); chunk "e" (Some 9); chunk "f" (Some 10)] in
  outcome
    (run (canned_store results (mkGetResult [] []))
       (search_with_page_filter "q" 10 20 2) ())
  = Returned ("Found 2 results in pages 10-20:" +:+ Py.nl +:+ Py.nl
                +:+ "1. [Page 12]" +:+ Py.nl +:+ "b" +:+ Py.nl +:+ Py.nl
                +:+ "2. [Page 20]" +:+ Py.nl +:+ "d" +:+ Py.nl +:+ Py.nl).
Proof.
  intros results.
  exact (proj1 (search_with_page_filter_count
                  (canned_store results (mkGetResult [] [])) () "q" 10 20 2
                  ltac:(lia))).
Defined.

(** ** More on content truncation *)

Lemma str_prefix_0 (s : string) : Py.str_prefix 0 s = EmptyString.
Proof. by destruct s. Qed.

Lemma str_prefix_append n (s t : string) :
  (n ≤ String.length s)%nat →
  Py.str_prefix n (Py.str_prefix n s +:+ t) = Py.str_prefix n s.
Proof.
  revert s. induction n as [|n IH]; intros s Hlen.
  - by rewrite !str_prefix_0.
  - destruct s as [|c s]; simpl in Hlen; [lia|].
    unfold Py.str_prefix in *. cbn [substring]. rewrite append_cons.
    cbn [substring]. rewrite IH by lia. done.
Qed.

(** X5.  The content block of the two search tools is never longer than
    threshold + 3 characters and always starts with the first [threshold]
    characters of the chunk's content.  It is shorter than the content only
    when the content has more than threshold + 3 characters; for a content
    of threshold + 1 or threshold + 2 characters the block, cut and
    followed by "...", is longer than the content it stands for. *)
Theorem truncate_content_length threshold content :
  let block := truncate_content threshold content in
  (String.length block ≤ threshold + 3)%nat ∧
  Py.str_prefix threshold block = Py.str_prefix threshold content ∧
  (String.length block < String.length content ↔
   threshold + 3 < String.length content)%nat ∧
  (String.length content < String.length block ↔
   threshold < String.length content < threshold + 3)%nat.
Proof.
  intros block. subst block.
  destruct (decide (threshold < String.length content)%nat) as [Hlong|Hshort].
  - destruct (truncate_content_long _ _ Hlong) as (-> & Hlen & _).
    rewrite Hlen. split_and!; [lia| |lia|lia].
    apply str_prefix_append. lia.
  - rewrite truncate_content_short by lia. split_and!; [lia|done|lia|lia].
Qed.

(** X5 at the thresholds of the tools: 301 characters become 303 under
    [semantic_search], 252 become 253 under [search_with_page_filter]. *)
Example truncation_lengthens :
  String.length (truncate_content 300 (str_repeat "a" 301)) = 303%nat ∧
  String.length (truncate_content 250 (str_repeat "a" 252)) = 253%nat.
Proof. by vm_compute. Qed.

(** ** More on [find_pages_by_keywords] *)

Section keyword_pages.

Context {S : Type} (vs : VectorStore S).

Lemma outcome_find_pages_by_keywords keyword rest s :
  outcome (run vs (find_pages_by_keywords (keyword :: rest)) s) =
  Returned
    (pages_report (keyword :: rest)
       (surfaced_pages (keyword_results vs (keyword :: rest) s).1)).
Proof.
  rewrite run_find_pages_by_keywords. cbn zeta.
  by destruct (keyword_results vs (keyword :: rest) s).
Qed.

Lemma calls_find_pages_by_keywords keywords s :
  calls (run vs (find_pages_by_keywords keywords) s) =
  (λ keyword, CallSimilaritySearch keyword 10) <$> keywords.
Proof.
  destruct keywords as [|keyword rest]; [done|].
  rewrite run_find_pages_by_keywords. cbn zeta.
  by destruct (keyword_results vs (keyword :: rest) s).
Qed.

Lemma surfaced_pages_empty responses :
  surfaced_pages responses = ∅ ↔
  ∀ results res, results ∈ responses → res ∈ results →
    metadata res !! "page" = None ∨ metadata res !! "page" = Some 0.
Proof.
  split.
  - intros Hempty results res Hresults Hres.
    destruct (metadata res !! "page") as [p|] eqn:Hp; [|by left].
    destruct (decide (p = 0)) as [->|Hne]; [by right|].
    assert (p ∈ surfaced_pages responses) as Hin
      by (apply elem_of_surfaced_pages; eauto 10).
    rewrite Hempty in Hin. by apply not_elem_of_empty in Hin.
  - intros Hnone. apply set_eq. intros p.
    rewrite elem_of_surfaced_pages. split; [|by intros ?%not_elem_of_empty].
    intros (Hp & results & res & Hresults & Hres & Hpage).
    destruct (Hnone results res Hresults Hres) as [Hn|Hz]; congruence.
Qed.

Lemma keyword_results_read_only keywords s :
  read_only vs →
  keyword_results vs keywords s =
  ((λ keyword, (similarity_search vs keyword 10 s).1) <$> keywords, s).
Proof.
  intros [Hsearch _]. induction keywords as [|keyword rest IH]; [done|].
  cbn [keyword_results fmap list_fmap].
  specialize (Hsearch keyword 10 s).
  destruct (similarity_search vs keyword 10 s) as [results s'].
  cbn [fst snd] in *. subst s'. by rewrite IH.
Qed.


End keyword_pages.

(** X6.  The two sentinels of [find_pages_by_keywords] are unambiguous:
    "No keywords provided." is returned exactly for the empty list, and
    "No pages found containing keywords: " followed by the list exactly when
    the list is non-empty and no chunk of any answer carries a nonzero
    page. *)
Theorem find_pages_by_keywords_sentinels {S} (vs : VectorStore S) (s : S)
    keywords :
  (outcome (run vs (find_pages_by_keywords keywords) s) =
     Returned "No keywords provided." ↔ keywords = []) ∧
  (outcome (run vs (find_pages_by_keywords keywords) s) =
     Returned ("No pages found containing keywords: "
                 +:+ Py.repr_str_list keywords) ↔
   keywords ≠ [] ∧
   ∀ results res,
     results ∈ (keyword_results vs keywords s).1 → res ∈ results →
     metadata res !! "page" = None ∨ metadata res !! "page" = Some 0).
Proof.
  destruct keywords as [|keyword rest].
  - split; [done|]. split; [strings_differ|by intros [? _]].
  - rewrite outcome_find_pages_by_keywords, <-surfaced_pages_empty.
    unfold pages_report.
    destruct (decide (surfaced_pages _ = ∅)) as [Hempty|Hne].
    + split; [split; [strings_differ|done]|].
      split; [by intros _|done].
    + split; [split; [strings_differ|done]|].
      split; [strings_differ|by intros [_ ?]].
Qed.

(** X7.  Against a store whose queries are reads, the pages
    [find_pages_by_keywords] reports depend only on which keywords occur in
    the list: two non-empty lists with the same elements, in any order and
    with any repetitions, give reports of the same page set. *)
Theorem find_pages_by_keywords_keyword_set {S} (vs : VectorStore S) (s : S)
    keyword1 rest1 keyword2 rest2 :
  let keywords1 := keyword1 :: rest1 in
  let keywords2 := keyword2 :: rest2 in
  read_only vs →
  (∀ keyword, keyword ∈ keywords1 ↔ keyword ∈ keywords2) →
  ∃ all_pages : gset Z,
    outcome (run vs (find_pages_by_keywords keywords1) s) =
      Returned (pages_report keywords1 all_pages) ∧
    outcome (run vs (find_pages_by_keywords keywords2) s) =
      Returned (pages_report keywords2 all_pages).
Proof.
  intros keywords1 keywords2 Hro Hsame.
  exists (surfaced_pages (keyword_results vs keywords1 s).1).
  split; [apply outcome_find_pages_by_keywords|].
  unfold keywords2 at 1. rewrite outcome_find_pages_by_keywords.
  fold keywords2. do 2 f_equal.
  rewrite !keyword_results_read_only by done. cbn [fst].
  apply set_eq. intros p. rewrite !elem_of_surfaced_pages.
  split; intros (Hp & results & res & Hresults & Hres & Hpage);
    (split; [done|]);
    apply list_elem_of_fmap in Hresults as (keyword & -> & Hkeyword);
    apply Hsame in Hkeyword;
    (eexists _, res; split_and!; [|done..]);
    apply list_elem_of_fmap; eauto.
Qed.

(** X7 on the toy store: [["a"; "b"]] and [["b"; "a"; "a"]]. *)
Lemma find_pages_by_keywords_keyword_set_witness :
  let collection := [chunk "x" (Some 12); chunk "y" (Some 4)] in
  ∃ all_pages : gset Z,
    outcome (run list_store (find_pages_by_keywords ["a"; "b"]) collection) =
      Returned (pages_report ["a"; "b"] all_pages) ∧
    outcome (run list_store (find_pages_by_keywords ["b"; "a"; "a"]) collection) =
      Returned (pages_report ["b"; "a"; "a"] all_pages).
Proof.
  intros collection.
  apply (find_pages_by_keywords_keyword_set list_store collection "a" ["b"]
           "b" ["a"; "a"]).
  - by split.
  - intros keyword. rewrite !elem_of_cons, !elem_of_nil. tauto.
Defined.


(** X9.  [find_pages_by_keywords] sends the store one similarity search per
    element of the keyword list, in list order and each with [k = 10], and
    nothing else: none for the empty list, and a keyword that occurs twice
    is searched twice. *)
Theorem find_pages_by_keywords_calls {S} (vs : VectorStore S) (s : S) keywords :
  calls (run vs (find_pages_by_keywords keywords) s) =
    (λ keyword, CallSimilaritySearch keyword 10) <$> keywords ∧
  length (calls (run vs (find_pages_by_keywords keywords) s)) = length keywords.
Proof.
  rewrite calls_find_pages_by_keywords. split; [done|]. apply length_fmap.
Qed.

(** ** Reading page lists back from the output *)

Section int_rendering.

Lemma int_char_pretty_N_char n : int_char (pretty_N_char n) = true.
Proof. unfold pretty_N_char. by repeat case_match. Qed.

Lemma pretty_N_go_int_chars x s :
  str_forall int_char s = true →
  str_forall int_char (pretty_N_go x s) = true.
Proof.
  revert s. induction (N.lt_wf_0 x) as [x _ IH]; intros s Hs.
  destruct (decide (x = 0)%N) as [->|Hx]; [by rewrite pretty_N_go_0|].
  rewrite pretty_N_go_step by lia. apply IH.
  - apply N.div_lt; lia.
  - cbn [str_forall]. by rewrite int_char_pretty_N_char.
Qed.

Lemma pretty_N_go_nonempty x s :
  s ≠ EmptyString → pretty_N_go x s ≠ EmptyString.
Proof.
  revert s. induction (N.lt_wf_0 x) as [x _ IH]; intros s Hs.
  destruct (decide (x = 0)%N) as [->|Hx]; [by rewrite pretty_N_go_0|].
  rewrite pretty_N_go_step by lia. apply IH; [apply N.div_lt; lia|done].
Qed.

Lemma pretty_positive_go p :
  pretty p = pretty_N_go (N.pos p) EmptyString.
Proof. unfold pretty, pretty_positive, pretty, pretty_N. by case_decide. Qed.

Lemma str_int_int_chars z : str_forall int_char (Py.str_int z) = true.
Proof.
  unfold Py.str_int, pretty, pretty_Z. destruct z as [|p|p]; [done|..].
  - rewrite pretty_positive_go. by apply pretty_N_go_int_chars.
  - rewrite pretty_positive_go, append_cons, append_nil_l. cbn [str_forall].
    rewrite pretty_N_go_int_chars; done.
Qed.

Lemma str_int_nonempty z : Py.str_int z ≠ EmptyString.
Proof.
  unfold Py.str_int, pretty, pretty_Z. destruct z as [|p|p]; [done| |done].
  rewrite pretty_positive_go, pretty_N_go_step by lia.
  by apply pretty_N_go_nonempty.
Qed.

Lemma int_chars_split s1 s2 c1 c2 r1 r2 :
  str_forall int_char s1 = true → str_forall int_char s2 = true →
  int_char c1 = false → int_char c2 = false →
  s1 +:+ String c1 r1 = s2 +:+ String c2 r2 →
  s1 = s2 ∧ c1 = c2 ∧ r1 = r2.
Proof.
  intros Hs1 Hs2 Hc1 Hc2. revert s2 Hs2.
  induction s1 as [|a s1 IH]; intros [|b s2] Hs2;
    rewrite ?append_nil_l, ?append_cons; intros [= ]; subst.
  - done.
  - cbn [str_forall] in Hs2. by rewrite Hc1 in Hs2.
  - cbn [str_forall] in Hs1. by rewrite Hc2 in Hs1.
  - cbn [str_forall] in Hs1, Hs2.
    apply andb_true_iff in Hs1 as [_ Hs1]. apply andb_true_iff in Hs2 as [_ Hs2].
    destruct (IH Hs1 s2 Hs2) as (-> & -> & ->); done.
Qed.

(** The rendering of a list of ints after its opening bracket. *)
Lemma repr_int_list_unfold l :
  Py.repr_int_list l = "[" +:+ (Py.join ", " (Py.str_int <$> l) +:+ "]").
Proof. reflexivity. Qed.

Lemma join_close_cons x l :
  ∃ c r,
    Py.join ", " (Py.str_int <$> x :: l) +:+ "]" = Py.str_int x +:+ String c r ∧
    int_char c = false ∧
    ((l = [] ∧ c = "]"%char ∧ r = EmptyString) ∨
     (l ≠ [] ∧ c = ","%char ∧
      r = " " +:+ (Py.join ", " (Py.str_int <$> l) +:+ "]"))).
Proof.
  destruct l as [|y l].
  - exists "]"%char, EmptyString. split_and!; [done|done|by left].
  - exists ","%char, (" " +:+ (Py.join ", " (Py.str_int <$> y :: l) +:+ "]")).
    split_and!; [|done|by right].
    unfold Py.join. cbn [fmap list_fmap String.concat].
    by rewrite !append_assoc.
Qed.

Lemma join_close_inj l1 l2 :
  Py.join ", " (Py.str_int <$> l1) +:+ "]" =
  Py.join ", " (Py.str_int <$> l2) +:+ "]" →
  l1 = l2.
Proof.
  revert l2. induction l1 as [|x l1 IH]; intros [|y l2] Heq; [done|..].
  - exfalso. destruct (join_close_cons y l2) as (c & r & Hy & Hc & _).
    rewrite Hy in Heq.
    destruct (int_chars_split EmptyString (Py.str_int y) "]" c EmptyString r)
      as (Hempty & _); [done|apply str_int_int_chars|done|done|exact Heq|].
    by destruct (str_int_nonempty y).
  - exfalso. destruct (join_close_cons x l1) as (c & r & Hx & Hc & _).
    rewrite Hx in Heq.
    destruct (int_chars_split (Py.str_int x) EmptyString c "]" r EmptyString)
      as (Hempty & _); [apply str_int_int_chars|done|done|done|exact Heq|].
    by destruct (str_int_nonempty x).
  - destruct (join_close_cons x l1) as (c1 & r1 & Hx & Hc1 & Hl1).
    destruct (join_close_cons y l2) as (c2 & r2 & Hy & Hc2 & Hl2).
    rewrite Hx, Hy in Heq.
    apply int_chars_split in Heq as (Hxy & Hc & Hr);
      [|apply str_int_int_chars|apply str_int_int_chars|done|done].
    apply (inj pretty) in Hxy as ->.
    destruct Hl1 as [(-> & -> & ->)|(Hne1 & -> & ->)],
             Hl2 as [(-> & -> & ->)|(Hne2 & -> & ->)]; try done.
    f_equal. apply IH. by simplify_eq.
Qed.

Lemma repr_int_list_inj l1 l2 :
  Py.repr_int_list l1 = Py.repr_int_list l2 → l1 = l2.
Proof.
  rewrite !repr_int_list_unfold. intros Heq.
  apply join_close_inj. by simplify_eq.
Qed.

Lemma sorted_elements_inj (X Y : gset Z) :
  Py.sorted (elements X) = Py.sorted (elements Y) → X = Y.
Proof.
  intros Heq. apply set_eq. intros p.
  by rewrite <-!elem_of_sorted_elements, Heq.
Qed.

Lemma pages_report_inj keywords (X Y : gset Z) :
  pages_report keywords X = pages_report keywords Y → X = Y.
Proof.
  unfold pages_report.
  destruct (decide (X = ∅)) as [->|HX], (decide (Y = ∅)) as [->|HY];
    [done|strings_differ|strings_differ|].
  cbn zeta. intros Heq.
  apply (inj (String.append "Found ")) in Heq.
  rewrite !(append_cons " " "pages containing keywords ") in Heq.
  apply int_chars_split in Heq as (_ & _ & Heq);
    [|apply str_int_int_chars|apply str_int_int_chars|done|done].
  apply (inj (String.append "pages containing keywords ")) in Heq.
  apply (inj (String.append (Py.repr_str_list keywords))) in Heq.
  apply (inj (String.append ":")) in Heq.
  apply (inj (String.append Py.nl)) in Heq.
  apply (inj (String.append "Pages: ")) in Heq.
  by apply sorted_elements_inj, repr_int_list_inj.
Qed.

End int_rendering.

Lemma Returned_inj {A} (a b : A) : Returned a = Returned b → a = b.
Proof. congruence. Qed.

(** X10.  For one and the same non-empty keyword list, the string
    [find_pages_by_keywords] returns tells the collected page set exactly:
    two runs, against any stores, return the same string if and only if
    they collected the same set of pages. *)
Theorem find_pages_by_keywords_report_faithful {S1 S2}
    (vs1 : VectorStore S1) (vs2 : VectorStore S2) (s1 : S1) (s2 : S2)
    keyword rest :
  let keywords := keyword :: rest in
  outcome (run vs1 (find_pages_by_keywords keywords) s1) =
    outcome (run vs2 (find_pages_by_keywords keywords) s2) ↔
  surfaced_pages (keyword_results vs1 keywords s1).1 =
    surfaced_pages (keyword_results vs2 keywords s2).1.
Proof.
  intros keywords. unfold keywords.
  rewrite !outcome_find_pages_by_keywords. split.
  - intros Heq%Returned_inj. by apply pages_report_inj in Heq.
  - by intros ->.
Qed.

(** X11.  The answer "No content found for pages: ..." names the requested
    list exactly, order and repetitions included: two calls of
    [get_document_pages] on non-empty lists for which the store finds no
    document return the same string if and only if the lists are equal. *)
Theorem no_content_sentinel_names_pages {S1 S2}
    (vs1 : VectorStore S1) (vs2 : VectorStore S2) (s1 : S1) (s2 : S2)
    page1 rest1 page2 rest2 :
  let pages1 := page1 :: rest1 in
  let pages2 := page2 :: rest2 in
  documents (get vs1 (pages_filter pages1) s1).1 = [] →
  documents (get vs2 (pages_filter pages2) s2).1 = [] →
  outcome (run vs1 (get_document_pages pages1) s1) =
    outcome (run vs2 (get_document_pages pages2) s2) ↔
  pages1 = pages2.
Proof.
  intros pages1 pages2 Hnone1 Hnone2. unfold pages1, pages2 in *.
  rewrite !outcome_get_document_pages. cbn zeta. rewrite Hnone1, Hnone2.
  split.
  - intros Heq%Returned_inj.
    apply (inj (String.append "No content found for pages: ")) in Heq.
    by apply repr_int_list_inj.
  - by intros ->.
Qed.

(** X11 on the lists [[3, 5]] and [[5, 3]]: the two answers differ. *)
Lemma no_content_sentinel_names_pages_witness :
  let vs := canned_store [] (mkGetResult [] []) in
  outcome (run vs (get_document_pages [3; 5]) ()) =
    outcome (run vs (get_document_pages [5; 3]) ()) ↔
  [3; 5] = [5; 3].
Proof.
  intros vs.
  apply (no_content_sentinel_names_pages vs vs () () 3 [5] 5 [3]); reflexivity.
Defined.

(** ** The tools over objects write nothing *)

Section objects.

Context {S : Type} (os : ObjectStore S).

Implicit Types (w : S * gmap positive Obj) (refs : list positive).

Lemma run_obj_read_truncated {A} threshold res (cont : string → ToolO A) w :
  run_obj os (read_truncated threshold res cont) w =
  run_obj os (cont (truncate_content threshold (obj_content (w.2 !! res)))) w.
Proof.
  unfold read_truncated, truncate_content. cbn [run_obj].
  by destruct (decide _).
Qed.

Lemma run_obj_render_entries {A} threshold i refs output
    (cont : string → ToolO A) w :
  run_obj os (render_entries_obj threshold i refs output cont) w =
  run_obj os (cont (render_entries threshold i (deref w.2 <$> refs) output)) w.
Proof.
  revert i output. induction refs as [|res refs IH]; intros i output; [done|].
  cbn [render_entries_obj run_obj]. rewrite run_obj_read_truncated, IH.
  reflexivity.
Qed.

Lemma deref_filter (P : Document → Prop) `{!∀ res, Decision (P res)}
    (h : gmap positive Obj) refs :
  deref h <$> filter (λ r, P (deref h r)) refs = filter P (deref h <$> refs).
Proof.
  induction refs as [|r refs IH]; [done|].
  cbn [fmap list_fmap]. rewrite !filter_cons.
  destruct (decide (P (deref h r))); cbn [fmap list_fmap]; by rewrite IH.
Qed.

Lemma run_obj_filter_pages {A} start_page end_page refs
    (cont : list positive → ToolO A) w :
  run_obj os (filter_pages_obj start_page end_page refs cont) w =
  run_obj os
    (cont (filter (λ r, in_page_range start_page end_page (deref w.2 r)) refs)) w.
Proof.
  revert cont. induction refs as [|res refs IH]; intros cont; [done|].
  cbn [filter_pages_obj run_obj]. cbn zeta. rewrite filter_cons.
  destruct (decide (in_page_range start_page end_page (deref w.2 res)))
    as [Hin|Hout];
    destruct (decide (_ ∧ _)) as [Hin'|Hout'];
    try (by rewrite IH); by exfalso.
Qed.

Lemma run_obj_truthy_pages {A} refs (cont : list Z → ToolO A) w :
  run_obj os (truthy_pages_obj refs cont) w =
  run_obj os (cont (omap truthy_page (deref w.2 <$> refs))) w.
Proof.
  revert cont. induction refs as [|res refs IH]; intros cont; [done|].
  cbn [truthy_pages_obj run_obj fmap list_fmap omap list_omap].
  unfold truthy_page at 1. cbn [deref metadata].
  destruct (obj_metadata (w.2 !! res) !! "page") as [page|] eqn:Hpage;
    [|by rewrite IH].
  destruct (decide (page = 0)); [by rewrite IH|].
  cbn [run_obj]. by rewrite Hpage, IH.
Qed.

Lemma run_obj_render_pages pairs text w :
  run_obj os (render_pages_obj pairs text) w =
  of_value_run
    (run (values_store os)
       (render_pages
          (prod_map id (λ d, obj_metadata (w.2 !! d)) <$> pairs) text) w).
Proof.
  revert text. induction pairs as [|[doc d] pairs IH]; intros text; [done|].
  cbn [render_pages_obj run_obj fmap list_fmap render_pages prod_map fst snd id].
  destruct (obj_metadata (w.2 !! d) !! "page") as [page|]; [apply IH|done].
Qed.

Lemma of_value_run_logged {A} c (r : Run (S * gmap positive Obj) A) :
  of_value_run (logged c r) = logged_o (OpQuery c) (of_value_run r).
Proof. reflexivity. Qed.

Lemma semantic_search_obj_run query k w :
  run_obj os (semantic_search_obj query k) w =
  of_value_run (run (values_store os) (semantic_search query k) w).
Proof.
  unfold semantic_search_obj, semantic_search.
  cbn [run_obj run values_store similarity_search].
  destruct (search_objects os query k w) as [refs w'].
  rewrite of_value_run_logged. f_equal.
  destruct refs as [|res refs]; [done|].
  rewrite run_obj_render_entries. cbn [fmap list_fmap length].
  by rewrite length_fmap.
Qed.

Lemma get_document_pages_obj_run pages w :
  run_obj os (get_document_pages_obj pages) w =
  of_value_run (run (values_store os) (get_document_pages pages) w).
Proof.
  destruct pages as [|page rest]; [done|].
  cbn [get_document_pages_obj get_document_pages run_obj run values_store get].
  destruct (get_objects os (pages_filter (page :: rest)) w)
    as [[docs dicts] w'].
  rewrite of_value_run_logged. f_equal. cbn [fst snd documents metadatas].
  destruct docs as [|doc docs]; [done|].
  rewrite run_obj_render_pages. do 3 f_equal.
  by rewrite <-(list_fmap_id (doc :: docs)) at 2; rewrite <-prod_map_zip.
Qed.

Lemma search_with_page_filter_obj_run query start_page end_page k w :
  run_obj os (search_with_page_filter_obj query start_page end_page k) w =
  of_value_run
    (run (values_store os)
       (search_with_page_filter query start_page end_page k) w).
Proof.
  unfold search_with_page_filter_obj, search_with_page_filter.
  cbn [run_obj run values_store similarity_search].
  destruct (search_objects os query (k * 3) w) as [refs w'].
  rewrite of_value_run_logged. f_equal.
  rewrite run_obj_filter_pages. cbn zeta. unfold page_filtered.
  rewrite <-deref_filter, list_prefix_fmap.
  destruct (Py.list_prefix k _) as [|res kept]; [done|].
  rewrite run_obj_render_entries. cbn [fmap list_fmap length].
  by rewrite length_fmap.
Qed.

Lemma collect_pages_obj_run keywords all_pages
    (cont_o : gset Z → ToolO string) (cont : gset Z → Tool string) w :
  (∀ pages w', run_obj os (cont_o pages) w' =
               of_value_run (run (values_store os) (cont pages) w')) →
  run_obj os (collect_pages_obj keywords all_pages cont_o) w =
  of_value_run (run (values_store os) (collect_pages keywords all_pages cont) w).
Proof.
  intros Hcont. revert all_pages w.
  induction keywords as [|keyword rest IH]; intros all_pages w; [apply Hcont|].
  cbn [collect_pages_obj collect_pages run_obj run values_store similarity_search].
  destruct (search_objects os keyword 10 w) as [refs w'].
  rewrite of_value_run_logged. f_equal.
  rewrite run_obj_truthy_pages. apply IH.
Qed.

Lemma find_pages_by_keywords_obj_run keywords w :
  run_obj os (find_pages_by_keywords_obj keywords) w =
  of_value_run (run (values_store os) (find_pages_by_keywords keywords) w).
Proof.
  destruct keywords as [|keyword rest]; [done|].
  unfold find_pages_by_keywords_obj, find_pages_by_keywords.
  apply collect_pages_obj_run. intros pages w'.
  by destruct (decide (pages = ∅)).
Qed.

Lemma replay_values_store calls w :
  replay (values_store os) calls w = replay_ops os (OpQuery <$> calls) w.
Proof.
  revert w. induction calls as [|[query k|where_] calls IH]; intros w; [done|..].
  - cbn [replay fmap list_fmap replay_ops values_store similarity_search].
    rewrite <-IH. by destruct (search_objects os query k w).
  - cbn [replay fmap list_fmap replay_ops values_store get].
    rewrite <-IH. by destruct (get_objects os where_ w).
Qed.

Lemma of_value_run_writes_nothing {A} (t : Tool A) w :
  writes_nothing os w (of_value_run (run (values_store os) t w)).
Proof.
  split; cbn [of_value_run store_log world].
  - by induction (calls _) as [|c cs IH].
  - by rewrite final_state_replay, replay_values_store.
Qed.

Lemma replay_ops_queries_read ops w :
  queries_read os → forallb is_query ops = true → replay_ops os ops w = w.
Proof.
  intros [Hsearch Hget].
  induction ops as [|[[query k|where_]|u] ops IH]; cbn [forallb is_query];
    intros Hq; [done| | |done].
  - cbn [replay_ops]. rewrite Hsearch. by apply IH.
  - cbn [replay_ops]. rewrite Hget. by apply IH.
Qed.

Lemma writes_nothing_queries_read {A} w (r : RunO S A) :
  queries_read os → writes_nothing os w r → world r = w.
Proof.
  intros Hread [Hq ->]. by apply replay_ops_queries_read.
Qed.

End objects.

(** C7.  Run over heap objects, none of the four tools writes anything, on
    any input and against any store: the only interactions with the store
    are its queries (no update of the collection is ever issued), and the
    store's state and the heap after the call are exactly what the store
    itself made of them in serving those queries, no attribute or entry of
    any object having been assigned to.  What the tool returns is the text
    computed from the objects' contents as the store handed them out, the
    truncated content being a new string.  In particular, against a store
    whose queries are reads, the store and every chunk object, content and
    metadata, are after the call what they were before. *)
Theorem tools_write_nothing {S} (os : ObjectStore S)
    (w : S * gmap positive Obj) :
  (∀ query k,
     let r := run_obj os (semantic_search_obj query k) w in
     writes_nothing os w r ∧
     outcome_o r = outcome (run (values_store os) (semantic_search query k) w)) ∧
  (∀ pages,
     let r := run_obj os (get_document_pages_obj pages) w in
     writes_nothing os w r ∧
     outcome_o r = outcome (run (values_store os) (get_document_pages pages) w)) ∧
  (∀ query start_page end_page k,
     let r :=
       run_obj os (search_with_page_filter_obj query start_page end_page k) w in
     writes_nothing os w r ∧
     outcome_o r =
       outcome
         (run (values_store os)
            (search_with_page_filter query start_page end_page k) w)) ∧
  (∀ keywords,
     let r := run_obj os (find_pages_by_keywords_obj keywords) w in
     writes_nothing os w r ∧
     outcome_o r =
       outcome (run (values_store os) (find_pages_by_keywords keywords) w)) ∧
  (queries_read os →
   (∀ query k, world (run_obj os (semantic_search_obj query k) w) = w) ∧
   (∀ pages, world (run_obj os (get_document_pages_obj pages) w) = w) ∧
   (∀ query start_page end_page k,
      world (run_obj os
               (search_with_page_filter_obj query start_page end_page k) w) = w) ∧
   (∀ keywords, world (run_obj os (find_pages_by_keywords_obj keywords) w) = w)).
Proof.
  split_and!.
  - intros query k r. unfold r. rewrite semantic_search_obj_run.
    split; [apply of_value_run_writes_nothing|done].
  - intros pages r. unfold r. rewrite get_document_pages_obj_run.
    split; [apply of_value_run_writes_nothing|done].
  - intros query start_page end_page k r. unfold r.
    rewrite search_with_page_filter_obj_run.
    split; [apply of_value_run_writes_nothing|done].
  - intros keywords r. unfold r. rewrite find_pages_by_keywords_obj_run.
    split; [apply of_value_run_writes_nothing|done].
  - intros Hread. split_and!; intros;
      apply (writes_nothing_queries_read os); try done.
    + rewrite semantic_search_obj_run. apply of_value_run_writes_nothing.
    + rewrite get_document_pages_obj_run. apply of_value_run_writes_nothing.
    + rewrite search_with_page_filter_obj_run. apply of_value_run_writes_nothing.
    + rewrite find_pages_by_keywords_obj_run. apply of_value_run_writes_nothing.
Qed.

(** C7 on a heap of three objects, a document of 301 characters, a short
    one without page and a metadata dict, against a store that hands out
    references to them: after each tool has run, the heap is as it was. *)
Lemma tools_write_nothing_witness :
  let h : gmap positive Obj :=
    {[ 1%positive := ObjDocument (str_repeat "a" 301) {[ "page" := 1 ]};
       2%positive := ObjDocument "short" ∅;
       3%positive := ObjDict {[ "page" := 2 ]} ]} in
  let os := shelf_store [1%positive; 2%positive] ["text"] [3%positive] in
  world (run_obj os (semantic_search_obj "q" 5) ((), h)) = ((), h) ∧
  world (run_obj os (get_document_pages_obj [2]) ((), h)) = ((), h) ∧
  world (run_obj os (search_with_page_filter_obj "q" 0 5 3) ((), h)) = ((), h) ∧
  world (run_obj os (find_pages_by_keywords_obj ["a"; "b"]) ((), h)) = ((), h).
Proof.
  intros h os.
  assert (Hread : queries_read os) by (by split).
  destruct (tools_write_nothing os ((), h))
    as (_ & _ & _ & _ & Hworld).
  destruct (Hworld Hread) as (Hsearch & Hget & Hfilter & Hfind).
  split_and!; [apply Hsearch|apply Hget|apply Hfilter|apply Hfind].
Defined.

(** A body that stored the truncated text back in the chunk would be told
    apart: run on the same heap, the assignment changes the object, and the
    run is not one that wrote nothing. *)
Example assignment_is_seen :
  let h : gmap positive Obj := {[ 1%positive := ObjDocument "abcdef" ∅ ]} in
  let os := shelf_store [1%positive] [] [] in
  let in_place : ToolO unit :=
    PageContent 1%positive (λ content,
      SetPageContent 1%positive (truncate_content 3 content) (ReturnO ())) in
  (world (run_obj os in_place ((), h))).2 !! 1%positive =
    Some (ObjDocument "abc..." ∅) ∧
  ¬ writes_nothing os ((), h) (run_obj os in_place ((), h)).
Proof.
  intros h os in_place. split; [by vm_compute|].
  intros [_ Hworld]. apply (f_equal (λ w, w.2 !! 1%positive)) in Hworld.
  vm_compute in Hworld. discriminate Hworld.
Qed.
